(** * AirPatrol API client: a shallow embedding of [airpatrol/api.py]

    The client is a thin request/response wrapper around three REST
    endpoints with one in-memory cache.  The embedding keeps the dynamic
    behaviour of the Python code: decoded JSON is an untyped [value],
    every lookup can raise the exception the interpreter raises, and the
    methods run in a state-and-exception monad whose state is the client
    object together with the list of requests issued on its session. *)

From Stdlib Require Import ZArith List String Ascii Bool Lia.
From Stdlib Require Import Floats DecimalString.
Import ListNotations.
Open Scope string_scope.
Open Scope Z_scope.

Set Warnings "-register-all".

(** ** Python values *)

(** What [json.loads] produces: [None], [bool], [int], [float], [str],
    [list] and [dict] with string keys.  A [dict] keeps insertion order
    and has unique keys; it is an association list read by first match.
    A [str] is represented by its UTF-8 bytes, so that equality,
    concatenation and emptiness are those of the Python string. *)
Inductive value : Type :=
| VNone
| VBool (b : bool)
| VInt (z : Z)
| VFloat (f : float)
| VStr (s : string)
| VList (l : list value)
| VDict (d : list (string * value)).

Definition dict := list (string * value).

(** The two kinds of subscript the client writes: [v["key"]] and [v[0]]. *)
Inductive subscript : Type :=
| Key (s : string)
| Index (i : Z).

(** The exceptions the client raises itself, those the interpreter raises
    on an ill-shaped document, and whatever the session raises. *)
Inductive exn : Type :=
| AirPatrolAuthenticationError (msg : string)
| AirPatrolError (msg : string)
| ValueError (msg : string)
| KeyError (key : subscript)
| IndexError
| TypeError
| AttributeError
| TransportError (msg : string).

Definition result (A : Type) : Type := (exn + A)%type.

Definition rbind {A B} (r : result A) (k : A -> result B) : result B :=
  match r with
  | inl e => inl e
  | inr a => k a
  end.

Declare Scope py_scope.
Delimit Scope py_scope with py.
Notation "x <-? r ;; k" := (rbind r (fun x => k))
  (at level 61, r at next level, right associativity) : py_scope.
Open Scope py_scope.

(** Builtins of the interpreter that the client calls and that are not part
    of the repository: [str.upper] and the [repr] that [str()] falls back
    to for floats and containers inside an f-string. *)
Class PyBuiltins := {
  str_upper : string -> string;
  py_repr : value -> string
}.

(** [str(n)] for an [int]. *)
Definition str_of_int (z : Z) : string := NilZero.string_of_int (Z.to_int z).

Fixpoint lookup (k : string) (d : dict) : option value :=
  match d with
  | [] => None
  | (k', v) :: rest => if String.eqb k k' then Some v else lookup k rest
  end.

(** [isinstance(v, str)] *)
Definition is_str (v : value) : bool :=
  match v with
  | VStr _ => true
  | _ => false
  end.

(** [v is None] *)
Definition is_none (v : value) : bool :=
  match v with
  | VNone => true
  | _ => false
  end.

(** [v.get(k, default)]: only a [dict] has the method. *)
Definition py_get (v : value) (k : string) (default : value) : result value :=
  match v with
  | VDict d =>
      match lookup k d with
      | Some x => inr x
      | None => inr default
      end
  | _ => inl AttributeError
  end.

(** Sequence indexing [l[i]], negative indices counting from the end. *)
Definition seq_index {A} (l : list A) (i : Z) : option A :=
  let n := Z.of_nat (List.length l) in
  let j := if i <? 0 then i + n else i in
  if (0 <=? j) && (j <? n) then nth_error l (Z.to_nat j) else None.

(** The characters of a string, one string each.  The split is by byte,
    exact on ASCII text; the client never reads a character it gets this
    way, it only calls [.get] on it or subscripts it with a key, and both
    raise whatever the character is. *)
Definition chars (s : string) : list value :=
  map (fun c => VStr (String c EmptyString)) (list_ascii_of_string s).

(** [v[k]]: a dict is read by key and knows no integer key, a list and a
    string are read by index, nothing else is subscriptable. *)
Definition py_getitem (v : value) (k : subscript) : result value :=
  match v, k with
  | VDict d, Key s =>
      match lookup s d with
      | Some x => inr x
      | None => inl (KeyError k)
      end
  | VDict _, Index _ => inl (KeyError k)
  | VList l, Index i =>
      match seq_index l i with
      | Some x => inr x
      | None => inl IndexError
      end
  | VStr s, Index i =>
      match seq_index (chars s) i with
      | Some x => inr x
      | None => inl IndexError
      end
  | _, _ => inl TypeError
  end.

(** [for x in v]: the elements of a list, the keys of a dict, the
    characters of a string; nothing else the decoder produces is iterable. *)
Definition py_iter (v : value) : result (list value) :=
  match v with
  | VList l => inr l
  | VDict d => inr (map (fun kv => VStr (fst kv)) d)
  | VStr s => inr (chars s)
  | _ => inl TypeError
  end.

(** *** Equality [a == b] *)

(** An [int] against a [float]: Python compares the exact values. *)
Definition float_eq_Z (f : float) (z : Z) : bool :=
  match Prim2SF f with
  | S754_zero _ => z =? 0
  | S754_finite s m e =>
      let sign (v : Z) := if s then - v else v in
      if 0 <=? e then z =? sign (Zpos m * 2 ^ e)
      else if (Zpos m) mod 2 ^ (- e) =? 0 then z =? sign (Zpos m / 2 ^ (- e))
      else false
  | _ => false
  end.

(** [bool] is a subclass of [int]: [True == 1]. *)
Definition as_number (v : value) : option (Z + float) :=
  match v with
  | VBool b => Some (inl (Z.b2z b))
  | VInt z => Some (inl z)
  | VFloat f => Some (inr f)
  | _ => None
  end.

Definition num_eq (x y : Z + float) : bool :=
  match x, y with
  | inl a, inl b => a =? b
  | inl a, inr g => float_eq_Z g a
  | inr f, inl b => float_eq_Z f b
  | inr f, inr g => PrimFloat.eqb f g
  end.

(** Lists compare element by element, dicts by key set and value; the
    identity shortcut that container comparison takes before calling
    [==] on two elements is not modelled (it only shows on NaN). *)
Fixpoint py_eq (a b : value) {struct a} : bool :=
  match a with
  | VNone => is_none b
  | VStr s => match b with VStr t => String.eqb s t | _ => false end
  | VList l =>
      match b with
      | VList l' =>
          (fix go (xs ys : list value) {struct xs} : bool :=
             match xs, ys with
             | [], [] => true
             | x :: xs', y :: ys' => py_eq x y && go xs' ys'
             | _, _ => false
             end) l l'
      | _ => false
      end
  | VDict d =>
      match b with
      | VDict d' =>
          Nat.eqb (List.length d) (List.length d') &&
          (fix go (kvs : list (string * value)) {struct kvs} : bool :=
             match kvs with
             | [] => true
             | (k, v) :: rest =>
                 match lookup k d' with
                 | Some v' => py_eq v v'
                 | None => false
                 end && go rest
             end) d
      | _ => false
      end
  | _ =>
      match as_number a, as_number b with
      | Some x, Some y => num_eq x y
      | _, _ => false
      end
  end.

(** [str(v)], as an f-string field applies it. *)
Definition py_str `{PyBuiltins} (v : value) : string :=
  match v with
  | VStr s => s
  | VNone => "None"
  | VBool true => "True"
  | VBool false => "False"
  | VInt z => str_of_int z
  | _ => py_repr v
  end.

(** [v.upper()]: only a [str] has the method. *)
Definition py_upper `{PyBuiltins} (v : value) : result string :=
  match v with
  | VStr s => inr (str_upper s)
  | _ => inl AttributeError
  end.

(** ** const.py *)

Definition AUTH_BASE_URL : string := "https://auth.apsrvd.io/v1".
Definition AUTH_LOGIN_ENDPOINT : string := "/login".
Definition AUTH_PAIRINGS_ENDPOINT : string := "/pairings".
Definition API_VERSION : string := "12".
Definition API_BASE_URL : string := "https://api.apsrvd.io/" ++ API_VERSION.
Definition API_COMMAND_ENDPOINT : string := "/command".

(** ** The HTTP session *)

Inductive http_method : Type := GET | POST.

(** What one call of [session.get] or [session.post] is given. *)
Record request : Type := mk_request {
  req_method : http_method;
  req_url : string;
  req_headers : list (string * string);
  req_json : option value
}.

(** A response as the client reads it: [resp.status], the decoded
    [await resp.json()] and [await resp.text()]. *)
Record response : Type := mk_response {
  status : Z;
  json : value;
  text : string
}.

(** The session is owned by the caller.  It answers a request, knowing the
    requests issued before it, with a response or by raising. *)
Definition ClientSession : Type := list request -> request -> result response.

(** ** State and exceptions *)

(** A computation over a state [S] that returns or raises; the state
    survives a raise, as attribute writes do in Python. *)
Definition M (S A : Type) : Type := S -> result A * S.

Definition ret {S A} (a : A) : M S A := fun s => (inr a, s).

Definition raise {S A} (e : exn) : M S A := fun s => (inl e, s).

Definition lift {S A} (r : result A) : M S A := fun s => (r, s).

Definition bind {S A B} (m : M S A) (k : A -> M S B) : M S B :=
  fun s =>
    match m s with
    | (inl e, s') => (inl e, s')
    | (inr a, s') => k a s'
    end.

Notation "x <- m ;; k" := (bind m (fun x => k))
  (at level 61, m at next level, right associativity) : py_scope.
Notation "m ;;; k" := (bind m (fun _ => k))
  (at level 61, right associativity) : py_scope.

(** ** class AirPatrolAPI *)

Record AirPatrolAPI : Type := mk_api {
  _session : ClientSession;
  _access_token : value;
  _user_id : value;
  _pairings_cache : value
}.

(** [__init__(self, session, access_token, user_id=None)] *)
Definition AirPatrolAPI_init (session : ClientSession)
    (access_token user_id : value) : AirPatrolAPI :=
  {| _session := session;
     _access_token := access_token;
     _user_id := user_id;
     _pairings_cache := VNone |}.

(** The state a method runs in: the client object and the calls made on
    the session so far, oldest first. *)
Record world : Type := mk_world {
  self : AirPatrolAPI;
  calls : list request
}.

(** Entering [async with session.get(...)] or [session.post(...)]: the
    call is made, then the response is there or the session has raised. *)
Definition send (session : ClientSession) (r : request)
  : M (list request) response :=
  fun log => (session log r, (log ++ [r])%list).

(** The world after one more call on the session. *)
Definition issued (w : world) (r : request) : world :=
  {| self := self w; calls := (calls w ++ [r])%list |}.

(** The world after [self._pairings_cache = v]. *)
Definition cached (w : world) (v : value) : world :=
  {| self := {| _session := _session (self w);
                _access_token := _access_token (self w);
                _user_id := _user_id (self w);
                _pairings_cache := v |};
     calls := calls w |}.

Definition session_call (r : request) : M world response :=
  fun w => (_session (self w) (calls w) r, issued w r).

Definition get_self : M world AirPatrolAPI := fun w => (inr (self w), w).

Definition set_pairings_cache (v : value) : M world unit :=
  fun w => (inr tt, cached w v).

Definition AUTH_FAILED : exn := AirPatrolAuthenticationError "Authentication failed".

Section Client.
Context `{PyBuiltins}.

(** The call [session.post(f"{AUTH_BASE_URL}{AUTH_LOGIN_ENDPOINT}",
    json={"email": email, "password": password})]. *)
Definition login_request (email password : string) : request :=
  {| req_method := POST;
     req_url := AUTH_BASE_URL ++ AUTH_LOGIN_ENDPOINT;
     req_headers := [];
     req_json := Some (VDict [("email", VStr email); ("password", VStr password)]) |}.

(** [authenticate(session, email, password)], a static method: it runs
    on the session alone and returns a new client. *)
Definition authenticate (session : ClientSession) (email password : string)
  : M (list request) AirPatrolAPI :=
  resp <- send session (login_request email password) ;;
  if negb (status resp =? 200) then raise AUTH_FAILED
  else
    let data := json resp in
    st <- lift (py_get data "status" VNone) ;;
    if py_eq st (VStr "ok") then
      user_id <- lift (entities <-? py_getitem data (Key "entities") ;;
                       users <-? py_getitem entities (Key "users") ;;
                       lst <-? py_getitem users (Key "list") ;;
                       first <-? py_getitem lst (Index 0) ;;
                       py_getitem first (Key "id")) ;;
      access_token <- lift (misc <-? py_getitem data (Key "misc") ;;
                            py_getitem misc (Key "accessToken")) ;;
      ret (AirPatrolAPI_init session access_token user_id)
    else raise AUTH_FAILED.

Definition get_unique_id : M world value :=
  me <- get_self ;;
  if is_none (_user_id me) then raise (ValueError "Not authenticated")
  else ret (_user_id me).

Definition get_access_token : M world value :=
  me <- get_self ;;
  ret (_access_token me).

Definition clear_pairings_cache : M world unit :=
  set_pairings_cache VNone.

(** [resp.status in [401, 403]] *)
Definition in_401_403 (st : Z) : bool := (st =? 401) || (st =? 403).

Definition bearer (me : AirPatrolAPI) : string :=
  "Bearer " ++ py_str (_access_token me).

(** The call [session.get(f"{AUTH_BASE_URL}{AUTH_PAIRINGS_ENDPOINT}",
    headers=headers)]. *)
Definition pairings_request (me : AirPatrolAPI) : request :=
  {| req_method := GET;
     req_url := AUTH_BASE_URL ++ AUTH_PAIRINGS_ENDPOINT;
     req_headers := [("Authorization", bearer me)];
     req_json := None |}.

Definition get_pairings : M world value :=
  me <- get_self ;;
  if negb (is_none (_pairings_cache me)) then ret (_pairings_cache me)
  else
    resp <- session_call (pairings_request me) ;;
    if in_401_403 (status resp) then
      raise (AirPatrolAuthenticationError "Failed to fetch pairings")
    else if status resp =? 200 then
      let data := json resp in
      st <- lift (py_get data "status" VNone) ;;
      if negb (py_eq st (VStr "ok")) then
        raise (AirPatrolError "API returned error status")
      else
        set_pairings_cache data ;;;
        ret data
    else
      raise (AirPatrolError ("Failed to fetch pairings: " ++ str_of_int (status resp))).

(** [data.get("entities", {}).get(name, {}).get("list", [])] *)
Definition entity_list (data : value) (name : string) : result value :=
  entities <-? py_get data "entities" (VDict []) ;;
  entity <-? py_get entities name (VDict []) ;;
  py_get entity "list" (VList []).

(** The inner loop of [get_devices]: the first pairing whose id equals
    [pairing_id]; the [break] leaves the rest of the list unread. *)
Fixpoint find_pairing (pairing_id : value) (pairings : list value)
  : result (option value) :=
  match pairings with
  | [] => inr None
  | pairing :: rest =>
      id <-? py_get pairing "id" VNone ;;
      if py_eq id pairing_id then inr (Some pairing)
      else find_pairing pairing_id rest
  end.

(** The outer loop of [get_devices], [user_pairings] being the list
    appended to. *)
Fixpoint collect_user_pairings (data user_id : value)
    (pairing_users user_pairings : list value) : result (list value) :=
  match pairing_users with
  | [] => inr user_pairings
  | pairing_user :: rest =>
      uid <-? py_get pairing_user "userId" VNone ;;
      if py_eq uid user_id then
        pairing_id <-? py_get pairing_user "pairingId" VNone ;;
        pairings <-? entity_list data "pairings" ;;
        ps <-? py_iter pairings ;;
        found <-? find_pairing pairing_id ps ;;
        match found with
        | Some pairing =>
            collect_user_pairings data user_id rest (user_pairings ++ [pairing])%list
        | None => collect_user_pairings data user_id rest user_pairings
        end
      else collect_user_pairings data user_id rest user_pairings
  end.

Definition get_devices : M world (list value) :=
  data <- get_pairings ;;
  me <- get_self ;;
  lift (pairing_users <-? entity_list data "pairingUser" ;;
        pus <-? py_iter pairing_users ;;
        collect_user_pairings data (_user_id me) pus []).

Definition command_headers (me : AirPatrolAPI) (unit_id : string)
  : list (string * string) :=
  [("Authorization", bearer me); ("X-Pairing-Id", unit_id)].

Definition climate_read_request (me : AirPatrolAPI) (unit_id : string) : request :=
  {| req_method := GET;
     req_url := API_BASE_URL ++ API_COMMAND_ENDPOINT;
     req_headers := command_headers me unit_id;
     req_json := None |}.

Definition climate_write_request (me : AirPatrolAPI) (unit_id : string)
    (climate_data : dict) : request :=
  {| req_method := POST;
     req_url := API_BASE_URL ++ API_COMMAND_ENDPOINT;
     req_headers := command_headers me unit_id;
     req_json := Some (VDict climate_data) |}.

Definition get_unit_climate_data (unit_id : string) : M world value :=
  me <- get_self ;;
  resp <- session_call (climate_read_request me unit_id) ;;
  if in_401_403 (status resp) then
    raise (AirPatrolAuthenticationError "Failed to fetch climate data")
  else if status resp =? 200 then ret (json resp)
  else
    raise (AirPatrolError ("Failed to fetch climate data: " ++ str_of_int (status resp))).

Definition set_unit_climate_data (unit_id : string) (climate_data : dict)
  : M world value :=
  me <- get_self ;;
  resp <- session_call (climate_write_request me unit_id climate_data) ;;
  if in_401_403 (status resp) then
    raise (AirPatrolAuthenticationError "Failed to set climate data")
  else if status resp =? 200 then ret (json resp)
  else
    raise (AirPatrolError ("Failed to set climate data: " ++ str_of_int (status resp))).

(** The dict literal of [get_data], its entries evaluated in order. *)
Definition unit_data (device : value) (unit_id : string) (climate_data : value)
  : result value :=
  name <-? py_get device "name" (VStr ("AirPatrol Device " ++ unit_id)) ;;
  type_or_unknown <-? py_get device "type" (VStr "Unknown") ;;
  upper <-? py_upper type_or_unknown ;;
  hwid <-? py_get device "hwid" VNone ;;
  type <-? py_get device "type" VNone ;;
  app_id <-? py_get device "appId" VNone ;;
  inr (VDict [("unit_id", VStr unit_id);
              ("name", name);
              ("model", VStr ("AirPatrol " ++ upper));
              ("manufacturer", VStr "AirPatrol");
              ("hwid", hwid);
              ("type", type);
              ("app_id", app_id);
              ("climate", climate_data)]).

(** The loop of [get_data], [units] being the list appended to. *)
Fixpoint get_data_loop (devices units : list value) : M world (list value) :=
  match devices with
  | [] => ret units
  | device :: rest =>
      unit_id <- lift (py_get device "id" VNone) ;;
      match unit_id with
      | VStr uid =>
          climate_data <- get_unit_climate_data uid ;;
          entry <- lift (unit_data device uid climate_data) ;;
          get_data_loop rest (units ++ [entry])%list
      | _ => get_data_loop rest units
      end
  end.

Definition get_data : M world (list value) :=
  devices <- get_devices ;;
  get_data_loop devices [].

Definition get_units : M world (list value) := get_data.

End Client.

(** Builtins to run the client on ASCII strings: [upper] maps a-z to A-Z;
    [repr] is never reached when the values formatted are strings. *)
Definition ascii_upper (c : ascii) : ascii :=
  let n := nat_of_ascii c in
  if (Nat.leb 97 n && Nat.leb n 122)%bool then ascii_of_nat (n - 32) else c.

Definition ascii_builtins : PyBuiltins :=
  {| str_upper := fun s => string_of_list_ascii (map ascii_upper (list_ascii_of_string s));
     py_repr := fun _ => EmptyString |}.

(** ** Fixtures of tests/test_api.py *)

(** [needle in hay] on strings. *)
Fixpoint contains (needle hay : string) : bool :=
  prefix needle hay ||
  match hay with
  | EmptyString => false
  | String _ rest => contains needle rest
  end.

(** The mock session of the tests: one answer for the pairings URL, one
    for the command URL, 404 for the rest. *)
Definition mock_session (pairings_resp command_resp : response) : ClientSession :=
  fun _ r =>
    if contains "pairings" (req_url r) then inr pairings_resp
    else if contains "command" (req_url r) then inr command_resp
    else inr (mk_response 404 (VDict []) EmptyString).

Definition test_pairing : dict :=
  [("id", VStr "00000");
   ("appId", VStr "00000-00000-00000-00000-00000");
   ("cid", VStr "00000");
   ("hwid", VStr "AAAAA-BBBBB-CCCCC-DDDDD-EEEEE");
   ("name", VStr "Test Device");
   ("type", VStr "apw")].

Definition test_pairing_user (user_id : string) : dict :=
  [("userId", VStr user_id); ("pairingId", VStr "00000"); ("id", VStr "000011")].

Definition entities_body (entities : value) : value :=
  VDict [("status", VStr "ok"); ("entities", entities);
         ("misc", VDict []); ("errors", VList [])].

Definition pairings_body (user_id : string) (pairings : list dict) : value :=
  entities_body
    (VDict [("pairingUser", VDict [("list", VList [VDict (test_pairing_user user_id)])]);
            ("pairings", VDict [("list", VList (map VDict pairings))])]).

Definition climate_body : value :=
  VDict [("ApiVersion", VStr "12");
         ("CommandMode", VStr "parameters");
         ("ParametersData",
          VDict [("PumpPower", VStr "on"); ("PumpTemp", VStr "16.000");
                 ("PumpMode", VStr "heat"); ("FanSpeed", VStr "max");
                 ("Swing", VStr "off")]);
         ("RoomTemp", VStr "27.517");
         ("RoomHumidity", VStr "56")].

Definition login_body : value :=
  VDict [("status", VStr "ok");
         ("entities", VDict [("users", VDict [("list", VList [VDict [("id", VStr "test_user_id")]])])]);
         ("misc", VDict [("accessToken", VStr "test_access_token")])].

Definition ok (body : value) : response := mk_response 200 body EmptyString.

(** The [api] fixture: a fresh client on [session]. *)
Definition api_world (session : ClientSession) : world :=
  mk_world (AirPatrolAPI_init session (VStr "test_access_token") (VStr "test_user_id")) [].

(** The world of [test_get_data_success]: the user owns [test_pairing]. *)
Definition data_world (pairings : list dict) : world :=
  api_world (mock_session (ok (pairings_body "test_user_id" pairings)) (ok climate_body)).

(** A world whose session answers every request with [resp]. *)
Definition const_world (resp : response) : world :=
  api_world (fun _ _ => inr resp).

(** ** Vocabulary of the statements *)

(** A dotted path into a document, [entities.users.list[0].id]: each step
    is the subscript the client writes. *)
Fixpoint py_path (v : value) (keys : list subscript) : result value :=
  match keys with
  | [] => inr v
  | k :: rest => x <-? py_getitem v k ;; py_path x rest
  end.

Definition USER_ID_PATH : list subscript :=
  [Key "entities"; Key "users"; Key "list"; Index 0; Key "id"].

Definition ACCESS_TOKEN_PATH : list subscript :=
  [Key "misc"; Key "accessToken"].

(** The exceptions a subscript or a method call on a decoded document can
    raise. *)
Definition lookup_error (e : exn) : Prop :=
  match e with
  | KeyError _ | IndexError | TypeError | AttributeError => True
  | _ => False
  end.

(** [d.get(k)] on a dict. *)
Definition field (d : dict) (k : string) : value :=
  match lookup k d with
  | Some v => v
  | None => VNone
  end.

(** Device resolution as section 4.4 words it: keep the association
    entries whose [userId] equals the user id, and for each take the first
    pairing whose [id] equals the entry's [pairingId], if there is one. *)
Definition resolved_pairings (user_id : value) (pairing_users pairings : list dict)
  : list value :=
  flat_map
    (fun pu =>
       if py_eq (field pu "userId") user_id then
         match find (fun p => py_eq (field p "id") (field pu "pairingId")) pairings with
         | Some p => [VDict p]
         | None => []
         end
       else [])
    pairing_users.

(** [isinstance(device.get("id"), str)] *)
Definition has_str_id (device : dict) : bool := is_str (field device "id").

(** The text that is upper-cased into the model: the device's [type] when
    it is a string, ["Unknown"] when the key is absent. *)
Definition type_text (device : dict) : option string :=
  match lookup "type" device with
  | None => Some "Unknown"
  | Some (VStr t) => Some t
  | Some _ => None
  end.

(** [u] is the unit climate snapshot of [device], as far as section 4.5
    fixes it. *)
Definition snapshot_of `{PyBuiltins} (device : dict) (u : value) : Prop :=
  exists unit_id t fields,
    lookup "id" device = Some (VStr unit_id) /\
    type_text device = Some t /\
    u = VDict fields /\
    lookup "unit_id" fields = Some (VStr unit_id) /\
    lookup "name" fields =
      Some (match lookup "name" device with
            | Some n => n
            | None => VStr ("AirPatrol Device " ++ unit_id)
            end) /\
    lookup "model" fields = Some (VStr ("AirPatrol " ++ str_upper t)) /\
    lookup "manufacturer" fields = Some (VStr "AirPatrol").

(** Every climate read on this client's session is answered with status
    200. *)
Definition climate_reads_succeed `{PyBuiltins} (me : AirPatrolAPI) : Prop :=
  forall log unit_id,
    exists resp,
      _session me log (climate_read_request me unit_id) = inr resp /\
      status resp = 200.

(** What the pairings cache can hold: nothing, or a document that
    [get_pairings] accepted. *)
Definition cache_ok (v : value) : Prop :=
  v = VNone \/ py_get v "status" VNone = inr (VStr "ok").

(** The session answers a climate read by the unit id alone. *)
Definition answers_reads `{PyBuiltins} (me : AirPatrolAPI)
    (answer : string -> response) : Prop :=
  forall log unit_id,
    _session me log (climate_read_request me unit_id) = inr (answer unit_id).

(** What [get_unit_climate_data] raises on a response that is not a 200. *)
Definition read_failure (resp : response) : exn :=
  if in_401_403 (status resp) then
    AirPatrolAuthenticationError "Failed to fetch climate data"
  else
    AirPatrolError ("Failed to fetch climate data: " ++ str_of_int (status resp)).

(** The id of a device whose id is a string. *)
Definition str_id (device : dict) : string :=
  match lookup "id" device with
  | Some (VStr s) => s
  | _ => EmptyString
  end.

(** The whole snapshot of a device with a string id and a type that is a
    string or absent, around the climate document of its unit. *)
Definition snapshot `{PyBuiltins} (device : dict) (climate_data : value) : value :=
  VDict [("unit_id", VStr (str_id device));
         ("name", match lookup "name" device with
                  | Some n => n
                  | None => VStr ("AirPatrol Device " ++ str_id device)
                  end);
         ("model", VStr ("AirPatrol " ++
                         str_upper (match type_text device with
                                    | Some t => t
                                    | None => EmptyString
                                    end)));
         ("manufacturer", VStr "AirPatrol");
         ("hwid", field device "hwid");
         ("type", field device "type");
         ("app_id", field device "appId");
         ("climate", climate_data)].

(** [dev] was resolved from [data] for [user_id]: it is an object of the
    pairings list whose [id] equals the [pairingId] of one of the user's
    entries in [pairing_users]. *)
Definition resolved_from (data user_id : value) (pairing_users : list value)
    (dev : value) : Prop :=
  exists d pu pairings ps,
    dev = VDict d /\
    In (VDict pu) pairing_users /\
    py_eq (field pu "userId") user_id = true /\
    entity_list data "pairings" = inr pairings /\
    py_iter pairings = inr ps /\
    In dev ps /\
    py_eq (field d "id") (field pu "pairingId") = true.

(** [v] is a JSON object. *)
Definition is_dict (v : value) : Prop :=
  match v with
  | VDict _ => True
  | _ => False
  end.

(** [headers[name]] *)
Fixpoint lookup_header (name : string) (headers : list (string * string))
  : option string :=
  match headers with
  | [] => None
  | (k, v) :: rest => if String.eqb name k then Some v else lookup_header name rest
  end.

(** What a climate call owes its caller for a response: the
    authentication error exactly on 401 and 403, the decoded body as it
    is on 200, and otherwise the generic error with the status in its
    message.  [what] is the verb of the messages, "fetch" or "set". *)
Definition status_contract (what : string) (resp : response)
    (r : result value) : Prop :=
  ((exists msg, r = inl (AirPatrolAuthenticationError msg)) <->
   status resp = 401 \/ status resp = 403) /\
  (status resp = 401 \/ status resp = 403 ->
   r = inl (AirPatrolAuthenticationError ("Failed to " ++ what ++ " climate data"))) /\
  (status resp = 200 -> r = inr (json resp)) /\
  (status resp <> 200 -> status resp <> 401 -> status resp <> 403 ->
   r = inl (AirPatrolError
              ("Failed to " ++ what ++ " climate data: " ++ str_of_int (status resp)))).

(** The unit a climate request is for. *)
Definition unit_of (r : request) : string :=
  match lookup_header "X-Pairing-Id" (req_headers r) with
  | Some unit_id => unit_id
  | None => EmptyString
  end.

(** A session that answers the pairings URL with [pairings_resp] and
    every other request by the unit it is for. *)
Definition unit_session (pairings_resp : response) (answer : string -> response)
  : ClientSession :=
  fun _ r =>
    if contains "pairings" (req_url r) then inr pairings_resp
    else inr (answer (unit_of r)).

(** The user owns the three units a, b and c. *)
Definition three_units_world (answer : string -> response) : world :=
  api_world
    (unit_session
       (ok (entities_body
              (VDict [("pairingUser",
                       VDict [("list",
                               VList [VDict [("userId", VStr "test_user_id");
                                             ("pairingId", VStr "a")];
                                      VDict [("userId", VStr "test_user_id");
                                             ("pairingId", VStr "b")];
                                      VDict [("userId", VStr "test_user_id");
                                             ("pairingId", VStr "c")]])]);
                      ("pairings",
                       VDict [("list",
                               VList [VDict [("id", VStr "a")];
                                      VDict [("id", VStr "b")];
                                      VDict [("id", VStr "c")]])])])))
       answer).

(** ** Properties *)

Ltac run :=
  unfold bind, lift, ret, raise, send, session_call, get_self,
    set_pairings_cache in *; simpl in *.

Lemma py_eq_str (v : value) (s : string) :
  py_eq v (VStr s) = true <-> v = VStr s.
Proof.
  destruct v; simpl; try (split; discriminate).
  rewrite String.eqb_eq. split; [intros -> | intros [= ->]]; reflexivity.
Qed.

Lemma py_eq_str_false (v : value) (s : string) :
  py_eq v (VStr s) = false <-> v <> VStr s.
Proof.
  rewrite <- py_eq_str. destruct (py_eq v (VStr s)); split; congruence.
Qed.

Lemma py_getitem_error (v : value) (k : subscript) (e : exn) :
  py_getitem v k = inl e -> lookup_error e.
Proof.
  unfold py_getitem.
  destruct v, k; try (intros [= <-]; exact I).
  - destruct (seq_index (chars s) i); intros [= <-]; exact I.
  - destruct (seq_index l i); intros [= <-]; exact I.
  - destruct (lookup s d); intros [= <-]; exact I.
Qed.

Lemma py_path_error (keys : list subscript) (v : value) (e : exn) :
  py_path v keys = inl e -> lookup_error e.
Proof.
  revert v. induction keys as [|k rest IH]; intros v; simpl.
  - discriminate.
  - destruct (py_getitem v k) as [e'|x] eqn:E; simpl.
    + intros [= <-]. eapply py_getitem_error; eassumption.
    + apply IH.
Qed.

Lemma py_get_error (v : value) (k : string) (dflt : value) (e : exn) :
  py_get v k dflt = inl e -> e = AttributeError.
Proof.
  destruct v; simpl; try (intros [= <-]; reflexivity).
  destruct (lookup k d); discriminate.
Qed.

(** On a 200 response whose body says ["ok"], [authenticate] is the two
    path lookups followed by the constructor. *)
Lemma authenticate_ok_branch session email password log resp :
  session log (login_request email password) = inr resp ->
  status resp = 200 ->
  py_get (json resp) "status" VNone = inr (VStr "ok") ->
  authenticate session email password log =
  (user_id <-? py_path (json resp) USER_ID_PATH ;;
   access_token <-? py_path (json resp) ACCESS_TOKEN_PATH ;;
   inr (AirPatrolAPI_init session access_token user_id),
   (log ++ [login_request email password])%list).
Proof.
  intros Hs H200 Hok. unfold authenticate. run.
  rewrite Hs, H200. simpl. rewrite Hok. simpl.
  unfold USER_ID_PATH, ACCESS_TOKEN_PATH. simpl.
  destruct (py_getitem (json resp) (Key "entities")) as [e|entities]; simpl; [reflexivity|].
  destruct (py_getitem entities (Key "users")) as [e|users]; simpl; [reflexivity|].
  destruct (py_getitem users (Key "list")) as [e|lst]; simpl; [reflexivity|].
  destruct (py_getitem lst (Index 0)) as [e|first]; simpl; [reflexivity|].
  destruct (py_getitem first (Key "id")) as [e|uid]; simpl; [reflexivity|].
  destruct (py_getitem (json resp) (Key "misc")) as [e|misc]; simpl; [reflexivity|].
  destruct (py_getitem misc (Key "accessToken")) as [e|tok]; simpl; reflexivity.
Qed.

(** The failure of [authenticate] on anything but a 200 response with an
    ["ok"] body. *)
Lemma authenticate_not_ok session email password log resp :
  session log (login_request email password) = inr resp ->
  status resp <> 200 \/
  (exists st, py_get (json resp) "status" VNone = inr st /\ st <> VStr "ok") ->
  authenticate session email password log =
  (inl AUTH_FAILED, (log ++ [login_request email password])%list).
Proof.
  intros Hs Hcase. unfold authenticate. run. rewrite Hs.
  destruct (status resp =? 200) eqn:E; simpl; [|reflexivity].
  apply Z.eqb_eq in E.
  destruct Hcase as [Hne | (st & Hst & Hne)]; [contradiction|].
  rewrite Hst. simpl.
  apply py_eq_str_false in Hne. rewrite Hne. reflexivity.
Qed.

(** C1, as the code has it: on a login response with HTTP status 200 whose
    body has [status == "ok"] and in which [entities.users.list[0].id] and
    [misc.accessToken] are present, [authenticate] issues the one login
    request and returns a new client that stores the value at
    [misc.accessToken] as its access token and the value at
    [entities.users.list[0].id] as its user id, with an empty pairings
    cache. *)
Theorem authenticate_returns_client session email password log resp uid tok :
  session log (login_request email password) = inr resp ->
  status resp = 200 ->
  py_get (json resp) "status" VNone = inr (VStr "ok") ->
  py_path (json resp) USER_ID_PATH = inr uid ->
  py_path (json resp) ACCESS_TOKEN_PATH = inr tok ->
  exists api,
    authenticate session email password log =
      (inr api, (log ++ [login_request email password])%list) /\
    _access_token api = tok /\
    _user_id api = uid /\
    _pairings_cache api = VNone.
Proof.
  intros Hs H200 Hok Huid Htok.
  exists (AirPatrolAPI_init session tok uid).
  rewrite (authenticate_ok_branch _ _ _ _ _ Hs H200 Hok), Huid, Htok.
  repeat split.
Qed.

(** A 200 response with an ["ok"] body in which one of the two paths is
    missing: the lookup error propagates and no client is returned. *)
Lemma authenticate_lookup_fails session email password log resp :
  session log (login_request email password) = inr resp ->
  status resp = 200 ->
  py_get (json resp) "status" VNone = inr (VStr "ok") ->
  (exists e, py_path (json resp) USER_ID_PATH = inl e) \/
  (exists e, py_path (json resp) ACCESS_TOKEN_PATH = inl e) ->
  exists e, fst (authenticate session email password log) = inl e /\ lookup_error e.
Proof.
  intros Hs H200 Hok Hmiss.
  rewrite (authenticate_ok_branch _ _ _ _ _ Hs H200 Hok). cbn [fst].
  destruct (py_path (json resp) USER_ID_PATH) as [e|uid] eqn:Eu; cbn [rbind].
  - exists e. split; [reflexivity|]. eapply py_path_error; eassumption.
  - destruct Hmiss as [[e He]|[e He]]; [discriminate|].
    rewrite He. cbn [rbind]. exists e. split; [reflexivity|].
    eapply py_path_error; eassumption.
Qed.

(** C2: for every login response, [authenticate] fails with
    [AirPatrolAuthenticationError("Authentication failed")] exactly when
    the HTTP status is not 200, or it is 200 and the body's [status] field
    (what [data.get("status")] evaluates to) is not ["ok"]; in both cases
    one request was issued and no client is returned, and a client is only
    ever returned on a 200 response whose [status] is ["ok"]. *)
Theorem authenticate_failure_cases session email password log resp :
  session log (login_request email password) = inr resp ->
  (fst (authenticate session email password log) = inl AUTH_FAILED <->
   status resp <> 200 \/
   (status resp = 200 /\
    exists st, py_get (json resp) "status" VNone = inr st /\ st <> VStr "ok")) /\
  (status resp <> 200 ->
   authenticate session email password log =
     (inl AUTH_FAILED, (log ++ [login_request email password])%list)) /\
  (status resp = 200 ->
   forall st, py_get (json resp) "status" VNone = inr st -> st <> VStr "ok" ->
   authenticate session email password log =
     (inl AUTH_FAILED, (log ++ [login_request email password])%list)) /\
  (forall api, fst (authenticate session email password log) = inr api ->
   status resp = 200 /\ py_get (json resp) "status" VNone = inr (VStr "ok")).
Proof.
  intros Hs.
  assert (Hfail : status resp <> 200 \/
            (exists st, py_get (json resp) "status" VNone = inr st /\ st <> VStr "ok") ->
          authenticate session email password log =
            (inl AUTH_FAILED, (log ++ [login_request email password])%list))
    by (apply authenticate_not_ok; assumption).
  assert (Hdec : status resp <> 200 \/ status resp = 200) by lia.
  repeat split.
  - (* only in the two cases *)
    intros Hres.
    destruct Hdec as [Hne|H200]; [left; assumption|right].
    split; [assumption|].
    destruct (py_get (json resp) "status" VNone) as [e|st] eqn:Est.
    + exfalso. revert Hres. unfold authenticate. run.
      rewrite Hs, H200. simpl. rewrite Est. simpl.
      apply py_get_error in Est. subst e. discriminate.
    + exists st. split; [reflexivity|]. intros ->.
      rewrite (authenticate_ok_branch _ _ _ _ _ Hs H200 Est) in Hres.
      cbn [fst] in Hres.
      destruct (py_path (json resp) USER_ID_PATH) as [e|uid] eqn:Eu;
        cbn [rbind] in Hres.
      * injection Hres as ->. apply py_path_error in Eu. exact Eu.
      * destruct (py_path (json resp) ACCESS_TOKEN_PATH) as [e|tok] eqn:Et;
          cbn [rbind] in Hres; [|discriminate].
        injection Hres as ->. apply py_path_error in Et. exact Et.
  - (* in each of the two cases *)
    intros [Hne|(_ & st & Hst & Hne)]; rewrite Hfail; eauto.
  - intros Hne. apply Hfail. left. assumption.
  - intros _ st Hst Hne. apply Hfail. right. eauto.
  - destruct Hdec as [Hne|H200]; [|assumption].
    rewrite Hfail in H by (left; assumption). discriminate.
  - destruct Hdec as [Hne|H200].
    + rewrite Hfail in H by (left; assumption). discriminate.
    + destruct (py_get (json resp) "status" VNone) as [e|st] eqn:Est.
      * exfalso. revert H. unfold authenticate. run.
        rewrite Hs, H200. simpl. rewrite Est. simpl. discriminate.
      * destruct (py_eq st (VStr "ok")) eqn:Eok.
        -- apply py_eq_str in Eok. subst st. reflexivity.
        -- apply py_eq_str_false in Eok.
           rewrite Hfail in H by (right; eauto). discriminate.
Qed.

(** *** More on [authenticate] *)

(** X1: Whatever the session answers, [authenticate] makes exactly one call:
    a POST to the login URL with no headers and the JSON body
    [{"email": email, "password": password}]; and when the session raises
    instead of answering, that exception is what [authenticate] raises. *)
Theorem authenticate_one_login_request session email password log :
  snd (authenticate session email password log) =
    (log ++ [{| req_method := POST;
                req_url := "https://auth.apsrvd.io/v1/login";
                req_headers := [];
                req_json := Some (VDict [("email", VStr email);
                                         ("password", VStr password)]) |}])%list /\
  (forall e, session log (login_request email password) = inl e ->
             fst (authenticate session email password log) = inl e).
Proof.
  split.
  - unfold authenticate. run.
    change (mk_request POST "https://auth.apsrvd.io/v1/login" []
              (Some (VDict [("email", VStr email); ("password", VStr password)])))
      with (login_request email password).
    destruct (session log (login_request email password)) as [e|resp]; [reflexivity|].
    destruct (negb (status resp =? 200)); [reflexivity|].
    destruct (py_get (json resp) "status" VNone) as [e|st]; simpl; [reflexivity|].
    destruct (py_eq st (VStr "ok")); [|reflexivity].
    repeat match goal with
           | |- context [py_getitem ?a ?b] =>
               destruct (py_getitem a b); simpl; try reflexivity
           end.
  - intros e He. unfold authenticate. run. rewrite He. reflexivity.
Qed.

(** X2: On a 200 response the shape of the body decides which exception
    leaves [authenticate].  A body that is not an object raises
    [AttributeError].  With [status == "ok"], the user id is looked up
    first: its [KeyError], [IndexError] or [TypeError] is raised whatever
    the rest of the body holds, and only then that of the access token.
    None of these is turned into the authentication error. *)
Theorem authenticate_shape_errors session email password log resp :
  session log (login_request email password) = inr resp ->
  status resp = 200 ->
  (is_dict (json resp) \/
   fst (authenticate session email password log) = inl AttributeError) /\
  (py_get (json resp) "status" VNone = inr (VStr "ok") ->
   (forall e, py_path (json resp) USER_ID_PATH = inl e ->
      fst (authenticate session email password log) = inl e /\
      lookup_error e /\ e <> AttributeError /\ e <> AUTH_FAILED) /\
   (forall uid e, py_path (json resp) USER_ID_PATH = inr uid ->
      py_path (json resp) ACCESS_TOKEN_PATH = inl e ->
      fst (authenticate session email password log) = inl e /\
      lookup_error e /\ e <> AttributeError /\ e <> AUTH_FAILED)).
Proof.
  intros Hs H200. split.
  - destruct (json resp) eqn:Ej; try (left; exact I); right;
      unfold authenticate; run; rewrite Hs, H200, Ej; reflexivity.
  - intros Hok.
    assert (Hsub : forall keys v e, py_path v keys = inl e ->
                     lookup_error e /\ e <> AttributeError /\ e <> AUTH_FAILED).
    { induction keys as [|k keys IH]; intros v e; cbn [py_path]; [discriminate|].
      destruct (py_getitem v k) as [e'|x] eqn:Ek; cbn [rbind]; [|apply IH].
      intros [= <-]. unfold py_getitem in Ek.
      destruct v, k;
        repeat match type of Ek with
               | context [match ?x with _ => _ end] => destruct x
               end;
        first [discriminate
              | injection Ek as <-; repeat split; first [exact I | discriminate]]. }
    rewrite (authenticate_ok_branch _ _ _ _ _ Hs H200 Hok). cbn [fst].
    split.
    + intros e He. rewrite He. cbn [rbind]. split; [reflexivity|].
      eapply Hsub; eassumption.
    + intros uid e Hu He. rewrite Hu, He. cbn [rbind]. split; [reflexivity|].
      eapply Hsub; eassumption.
Qed.

(** X3: A client comes out of [authenticate] only with what the login body
    holds: its token is the value at [misc.accessToken], its user id the
    value at [entities.users.list[0].id], its session the one the login
    went through, and its pairings cache is empty. *)
Theorem authenticate_client_from_body session email password log resp api :
  session log (login_request email password) = inr resp ->
  fst (authenticate session email password log) = inr api ->
  py_path (json resp) ACCESS_TOKEN_PATH = inr (_access_token api) /\
  py_path (json resp) USER_ID_PATH = inr (_user_id api) /\
  _session api = session /\
  _pairings_cache api = VNone.
Proof.
  intros Hs Hres.
  assert (H200 : status resp = 200).
  { destruct (Z.eq_dec (status resp) 200) as [E|E]; [exact E|].
    rewrite authenticate_not_ok with (resp := resp) in Hres by auto. discriminate. }
  assert (Hok : py_get (json resp) "status" VNone = inr (VStr "ok")).
  { destruct (py_get (json resp) "status" VNone) as [e|st] eqn:Est.
    - exfalso. revert Hres. unfold authenticate. run.
      rewrite Hs, H200. simpl. rewrite Est. discriminate.
    - destruct (py_eq st (VStr "ok")) eqn:Eok.
      + apply py_eq_str in Eok. subst st. reflexivity.
      + apply py_eq_str_false in Eok.
        rewrite authenticate_not_ok with (resp := resp) in Hres by eauto.
        discriminate. }
  rewrite (authenticate_ok_branch _ _ _ _ _ Hs H200 Hok) in Hres. cbn [fst] in Hres.
  destruct (py_path (json resp) USER_ID_PATH) as [e|uid]; cbn [rbind] in Hres;
    [discriminate|].
  destruct (py_path (json resp) ACCESS_TOKEN_PATH) as [e|tok]; cbn [rbind] in Hres;
    [discriminate|].
  injection Hres as <-. repeat split.
Qed.

(** *** The pairings cache *)

Section Pairings.
Context `{PyBuiltins}.

(** [get_pairings] step by step: the cache test, the call, the branches
    on the status and on the body. *)
Lemma get_pairings_eq (w : world) :
  get_pairings w =
  if negb (is_none (_pairings_cache (self w))) then
    (inr (_pairings_cache (self w)), w)
  else
    let w' := issued w (pairings_request (self w)) in
    match _session (self w) (calls w) (pairings_request (self w)) with
    | inl e => (inl e, w')
    | inr resp =>
        if in_401_403 (status resp) then
          (inl (AirPatrolAuthenticationError "Failed to fetch pairings"), w')
        else if status resp =? 200 then
          match py_get (json resp) "status" VNone with
          | inl e => (inl e, w')
          | inr st =>
              if negb (py_eq st (VStr "ok")) then
                (inl (AirPatrolError "API returned error status"), w')
              else (inr (json resp), cached w' (json resp))
          end
        else
          (inl (AirPatrolError
                  ("Failed to fetch pairings: " ++ str_of_int (status resp))), w')
    end.
Proof.
  unfold get_pairings. run.
  destruct (is_none (_pairings_cache (self w))); simpl; [|reflexivity].
  destruct (_session (self w) (calls w) (pairings_request (self w))) as [e|resp];
    [reflexivity|].
  destruct (in_401_403 (status resp)); [reflexivity|].
  destruct (status resp =? 200); [|reflexivity].
  destruct (py_get (json resp) "status" VNone) as [e|st]; simpl; [reflexivity|].
  destruct (py_eq st (VStr "ok")); reflexivity.
Qed.

Lemma is_none_spec (v : value) : is_none v = true <-> v = VNone.
Proof. destruct v; simpl; split; congruence. Qed.

Lemma is_none_false (v : value) : is_none v = false <-> v <> VNone.
Proof. destruct v; simpl; split; congruence. Qed.

Lemma get_pairings_hit (w : world) :
  _pairings_cache (self w) <> VNone ->
  get_pairings w = (inr (_pairings_cache (self w)), w).
Proof.
  intros Hc. rewrite get_pairings_eq.
  apply is_none_false in Hc. rewrite Hc. reflexivity.
Qed.

(** A successful fetch on an empty cache: one call, and the document
    returned is the document cached. *)
Lemma get_pairings_miss_ok (w w1 : world) (doc : value) :
  _pairings_cache (self w) = VNone ->
  get_pairings w = (inr doc, w1) ->
  w1 = cached (issued w (pairings_request (self w))) doc /\ doc <> VNone.
Proof.
  intros Hc. rewrite get_pairings_eq, Hc. simpl.
  destruct (_session (self w) (calls w) (pairings_request (self w))) as [e|resp];
    [discriminate|].
  destruct (in_401_403 (status resp)); [discriminate|].
  destruct (status resp =? 200); [|discriminate].
  destruct (py_get (json resp) "status" VNone) as [e|st] eqn:Est; [discriminate|].
  destruct (py_eq st (VStr "ok")); simpl; [|discriminate].
  intros [= <- <-]. split; [reflexivity|].
  intros Hn. rewrite Hn in Est. discriminate.
Qed.

(** Whatever the outcome, an invocation on an empty cache issues the
    pairings request. *)
Lemma get_pairings_miss_calls (w : world) :
  _pairings_cache (self w) = VNone ->
  calls (snd (get_pairings w)) = (calls w ++ [pairings_request (self w)])%list.
Proof.
  intros Hc. rewrite get_pairings_eq, Hc. cbn [is_none negb]. cbv zeta.
  destruct (_session (self w) (calls w) (pairings_request (self w))) as [e0|resp];
    [reflexivity|].
  destruct (in_401_403 (status resp)); [reflexivity|].
  destruct (status resp =? 200); [|reflexivity].
  destruct (py_get (json resp) "status" VNone) as [e0|st]; [reflexivity|].
  destruct (negb (py_eq st (VStr "ok"))); reflexivity.
Qed.

Lemma in_401_403_spec (st : Z) : in_401_403 st = true <-> st = 401 \/ st = 403.
Proof. unfold in_401_403. rewrite orb_true_iff, !Z.eqb_eq. reflexivity. Qed.

(** C3: [get_pairings] memoizes.  With a non-null cache it returns the
    cached document and leaves the world, so the list of calls, as it
    was.  From an empty cache, when the first of two consecutive
    invocations succeeds the two together issue exactly one call and the
    second returns the same document; with [clear_pairings_cache] between
    them the pairings request is issued a second time. *)
Theorem get_pairings_memoizes (w : world) :
  (_pairings_cache (self w) <> VNone ->
   get_pairings w = (inr (_pairings_cache (self w)), w)) /\
  (forall doc w1,
     _pairings_cache (self w) = VNone ->
     get_pairings w = (inr doc, w1) ->
     (get_pairings ;;; get_pairings) w = (inr doc, w1) /\
     calls w1 = (calls w ++ [pairings_request (self w)])%list) /\
  (forall doc w1,
     _pairings_cache (self w) = VNone ->
     get_pairings w = (inr doc, w1) ->
     calls (snd ((get_pairings ;;; clear_pairings_cache ;;; get_pairings) w)) =
     (calls w ++ [pairings_request (self w); pairings_request (self w)])%list).
Proof.
  split; [apply get_pairings_hit|]. split.
  - intros doc w1 Hc Hfirst.
    destruct (get_pairings_miss_ok _ _ _ Hc Hfirst) as [-> Hdoc].
    split; [|reflexivity].
    unfold bind at 1. rewrite Hfirst.
    rewrite get_pairings_hit; [reflexivity|exact Hdoc].
  - intros doc w1 Hc Hfirst.
    destruct (get_pairings_miss_ok _ _ _ Hc Hfirst) as [-> Hdoc].
    unfold bind at 1. rewrite Hfirst.
    unfold bind at 1. unfold clear_pairings_cache, set_pairings_cache.
    rewrite get_pairings_miss_calls by reflexivity.
    cbn [cached issued self calls].
    rewrite <- app_assoc. reflexivity.
Qed.

(** C4: the four outcomes of a pairings fetch on an empty cache.  Each
    issues the one pairings request; only the last but one writes the
    cache. *)
Theorem get_pairings_response_cases (w : world) (resp : response) :
  _pairings_cache (self w) = VNone ->
  _session (self w) (calls w) (pairings_request (self w)) = inr resp ->
  let w' := issued w (pairings_request (self w)) in
  (status resp = 401 \/ status resp = 403 ->
   get_pairings w =
     (inl (AirPatrolAuthenticationError "Failed to fetch pairings"), w')) /\
  (status resp = 200 ->
   forall st, py_get (json resp) "status" VNone = inr st -> st <> VStr "ok" ->
   get_pairings w = (inl (AirPatrolError "API returned error status"), w')) /\
  (status resp = 200 ->
   py_get (json resp) "status" VNone = inr (VStr "ok") ->
   get_pairings w = (inr (json resp), cached w' (json resp)) /\
   _pairings_cache (self (cached w' (json resp))) = json resp) /\
  (status resp <> 200 -> status resp <> 401 -> status resp <> 403 ->
   get_pairings w =
     (inl (AirPatrolError
             ("Failed to fetch pairings: " ++ str_of_int (status resp))), w')).
Proof.
  intros Hc Hs w'. subst w'.
  rewrite get_pairings_eq, Hc, Hs. cbn [is_none negb]. cbv zeta.
  repeat split.
  - intros Hst. apply in_401_403_spec in Hst. rewrite Hst. reflexivity.
  - intros H200 st Hst Hne. rewrite H200, Hst. cbn.
    apply py_eq_str_false in Hne. rewrite Hne. reflexivity.
  - rewrite H0, H1. reflexivity.
  - intros H200 H401 H403.
    destruct (in_401_403 (status resp)) eqn:E.
    + apply in_401_403_spec in E. lia.
    + destruct (status resp =? 200) eqn:E2; [apply Z.eqb_eq in E2; lia|reflexivity].
Qed.

(** C10: a failing [get_pairings] leaves the cache as it was, so after a
    failure on an empty cache the next invocation issues the pairings
    request again; and whenever an invocation changes the cache it was a
    200 response with [status == "ok"], returned and cached. *)
Theorem get_pairings_failure_keeps_cache (w : world) :
  (forall e w',
     get_pairings w = (inl e, w') ->
     _pairings_cache (self w') = _pairings_cache (self w) /\
     (_pairings_cache (self w) = VNone ->
      calls (snd (get_pairings w')) =
      (calls w' ++ [pairings_request (self w')])%list)) /\
  (forall r w',
     get_pairings w = (r, w') ->
     _pairings_cache (self w') <> _pairings_cache (self w) ->
     exists resp,
       _session (self w) (calls w) (pairings_request (self w)) = inr resp /\
       status resp = 200 /\
       py_get (json resp) "status" VNone = inr (VStr "ok") /\
       r = inr (json resp) /\
       _pairings_cache (self w') = json resp).
Proof.
  split.
  - intros e w' Hrun.
    assert (Hkeep : _pairings_cache (self w') = _pairings_cache (self w)).
    { revert Hrun. rewrite get_pairings_eq.
      destruct (negb (is_none (_pairings_cache (self w)))); [discriminate|].
      cbv zeta.
      destruct (_session (self w) (calls w) (pairings_request (self w))) as [e0|resp];
        [intros [= _ <-]; reflexivity|].
      destruct (in_401_403 (status resp)); [intros [= _ <-]; reflexivity|].
      destruct (status resp =? 200); [|intros [= _ <-]; reflexivity].
      destruct (py_get (json resp) "status" VNone) as [e0|st];
        [intros [= _ <-]; reflexivity|].
      destruct (negb (py_eq st (VStr "ok"))); [intros [= _ <-]; reflexivity|].
      discriminate. }
    split; [exact Hkeep|].
    intros Hc. apply get_pairings_miss_calls. congruence.
  - intros r w'. rewrite get_pairings_eq.
    destruct (negb (is_none (_pairings_cache (self w))));
      [intros [= _ <-] Hne; contradiction|].
    cbv zeta.
    destruct (_session (self w) (calls w) (pairings_request (self w))) as [e0|resp];
      [intros [= _ <-] Hne; exfalso; apply Hne; reflexivity|].
    destruct (in_401_403 (status resp));
      [intros [= _ <-] Hne; exfalso; apply Hne; reflexivity|].
    destruct (status resp =? 200) eqn:E200;
      [|intros [= _ <-] Hne; exfalso; apply Hne; reflexivity].
    destruct (py_get (json resp) "status" VNone) as [e0|st] eqn:Est;
      [intros [= _ <-] Hne; exfalso; apply Hne; reflexivity|].
    destruct (py_eq st (VStr "ok")) eqn:Eok; cbn [negb];
      [|intros [= _ <-] Hne; exfalso; apply Hne; reflexivity].
    intros [= <- <-] _. exists resp.
    apply Z.eqb_eq in E200. apply py_eq_str in Eok. subst st.
    repeat split; assumption.
Qed.

(** *** Identity accessors *)

(** C9: [get_unique_id] returns the stored user id and raises
    [ValueError("Not authenticated")] exactly when the user id is [None],
    as it is in a client constructed without one; [get_access_token]
    returns the stored token, [None] included, and cannot raise; both
    leave the client and the list of calls as they were. *)
Theorem identity_accessors (w : world) :
  snd (get_unique_id w) = w /\
  (fst (get_unique_id w) = inl (ValueError "Not authenticated") <->
   _user_id (self w) = VNone) /\
  (forall e, fst (get_unique_id w) = inl e -> e = ValueError "Not authenticated") /\
  (_user_id (self w) <> VNone -> fst (get_unique_id w) = inr (_user_id (self w))) /\
  (forall session token log,
     fst (get_unique_id (mk_world (AirPatrolAPI_init session token VNone) log)) =
     inl (ValueError "Not authenticated")) /\
  get_access_token w = (inr (_access_token (self w)), w).
Proof.
  unfold get_unique_id, get_access_token. run.
  destruct (is_none (_user_id (self w))) eqn:E; simpl.
  - apply is_none_spec in E. repeat split; try congruence.
  - apply is_none_false in E. repeat split; try congruence.
Qed.

(** *** Climate calls *)

Lemma get_unit_climate_data_eq (unit_id : string) (w : world) :
  get_unit_climate_data unit_id w =
  let r := climate_read_request (self w) unit_id in
  (match _session (self w) (calls w) r with
   | inl e => inl e
   | inr resp =>
       if in_401_403 (status resp) then
         inl (AirPatrolAuthenticationError "Failed to fetch climate data")
       else if status resp =? 200 then inr (json resp)
       else inl (AirPatrolError
                   ("Failed to fetch climate data: " ++ str_of_int (status resp)))
   end, issued w r).
Proof.
  unfold get_unit_climate_data. run.
  destruct (_session (self w) (calls w) (climate_read_request (self w) unit_id))
    as [e|resp]; [reflexivity|].
  destruct (in_401_403 (status resp)); [reflexivity|].
  destruct (status resp =? 200); reflexivity.
Qed.

Lemma set_unit_climate_data_eq (unit_id : string) (climate_data : dict) (w : world) :
  set_unit_climate_data unit_id climate_data w =
  let r := climate_write_request (self w) unit_id climate_data in
  (match _session (self w) (calls w) r with
   | inl e => inl e
   | inr resp =>
       if in_401_403 (status resp) then
         inl (AirPatrolAuthenticationError "Failed to set climate data")
       else if status resp =? 200 then inr (json resp)
       else inl (AirPatrolError
                   ("Failed to set climate data: " ++ str_of_int (status resp)))
   end, issued w r).
Proof.
  unfold set_unit_climate_data. run.
  destruct (_session (self w) (calls w)
              (climate_write_request (self w) unit_id climate_data))
    as [e|resp]; [reflexivity|].
  destruct (in_401_403 (status resp)); [reflexivity|].
  destruct (status resp =? 200); reflexivity.
Qed.

Lemma append_assoc (a b c : string) : (a ++ b) ++ c = a ++ b ++ c.
Proof. induction a as [|ch a IH]; simpl; [reflexivity|rewrite IH; reflexivity]. Qed.

(** The three-way branch on the status that both climate calls share. *)
Lemma status_branch_contract (what msg : string) (resp : response) :
  msg = "Failed to " ++ what ++ " climate data" ->
  status_contract what resp
    (if in_401_403 (status resp) then inl (AirPatrolAuthenticationError msg)
     else if status resp =? 200 then inr (json resp)
     else inl (AirPatrolError (msg ++ ": " ++ str_of_int (status resp)))).
Proof.
  intros ->. unfold status_contract.
  destruct (in_401_403 (status resp)) eqn:E.
  - apply in_401_403_spec in E. repeat split; intros; try lia; eauto.
  - assert (Hn : ~ (status resp = 401 \/ status resp = 403))
      by (rewrite <- in_401_403_spec; congruence).
    destruct (status resp =? 200) eqn:E2.
    + apply Z.eqb_eq in E2.
      repeat split; intros; try tauto; try lia.
      destruct H0 as [m Hm]. discriminate.
    + apply Z.eqb_neq in E2.
      repeat split; intros; try tauto; try lia.
      * destruct H0 as [m Hm]. discriminate.
      * rewrite !append_assoc. reflexivity.
Qed.

(** C7: for every unit id and every response, [get_unit_climate_data]
    and [set_unit_climate_data] raise the authentication error exactly on
    status 401 or 403, return the decoded body as it is on 200, with no
    look at its content, and on every other status raise the generic
    error with the status in the message. *)
Theorem climate_calls_status_contract (w : world) (unit_id : string) :
  (forall resp,
     _session (self w) (calls w) (climate_read_request (self w) unit_id) = inr resp ->
     status_contract "fetch" resp (fst (get_unit_climate_data unit_id w))) /\
  (forall climate_data resp,
     _session (self w) (calls w)
       (climate_write_request (self w) unit_id climate_data) = inr resp ->
     status_contract "set" resp (fst (set_unit_climate_data unit_id climate_data w))).
Proof.
  split.
  - intros resp Hs. rewrite get_unit_climate_data_eq. cbv zeta. cbn [fst].
    rewrite Hs. apply (status_branch_contract "fetch"). reflexivity.
  - intros climate_data resp Hs. rewrite set_unit_climate_data_eq. cbv zeta. cbn [fst].
    rewrite Hs. apply (status_branch_contract "set"). reflexivity.
Qed.

(** C8: whatever the unit id, the payload and the outcome,
    [set_unit_climate_data] adds exactly one call to the session: a POST
    to the command endpoint, with the headers [Authorization: Bearer
    <access_token>] and [X-Pairing-Id: <unit_id>], whose JSON body is the
    caller's payload itself. *)
Theorem set_unit_climate_data_request (w : world) (unit_id : string)
    (climate_data : dict) :
  exists r,
    calls (snd (set_unit_climate_data unit_id climate_data w)) =
      (calls w ++ [r])%list /\
    req_method r = POST /\
    req_url r = "https://api.apsrvd.io/12/command" /\
    req_headers r =
      [("Authorization", "Bearer " ++ py_str (_access_token (self w)));
       ("X-Pairing-Id", unit_id)] /\
    req_json r = Some (VDict climate_data) /\
    (forall token, _access_token (self w) = VStr token ->
       lookup_header "Authorization" (req_headers r) = Some ("Bearer " ++ token)).
Proof.
  exists (climate_write_request (self w) unit_id climate_data).
  rewrite set_unit_climate_data_eq. cbv zeta. cbn [snd issued calls].
  repeat split.
  intros token Htok. cbn. unfold bearer. rewrite Htok. reflexivity.
Qed.

(** *** Device resolution *)

Lemma py_get_field (d : dict) (k : string) :
  py_get (VDict d) k VNone = inr (field d k).
Proof. unfold py_get, field. destruct (lookup k d); reflexivity. Qed.

Lemma find_pairing_first (pairing_id : value) (ps : list dict) :
  find_pairing pairing_id (map VDict ps) =
  inr (option_map VDict (find (fun p => py_eq (field p "id") pairing_id) ps)).
Proof.
  induction ps as [|p ps IH]; [reflexivity|].
  cbn [map find_pairing find]. rewrite py_get_field. cbn [rbind].
  destruct (py_eq (field p "id") pairing_id); [reflexivity|exact IH].
Qed.

Lemma collect_user_pairings_resolves (data user_id : value)
    (pus ps : list dict) (acc : list value) :
  entity_list data "pairings" = inr (VList (map VDict ps)) ->
  collect_user_pairings data user_id (map VDict pus) acc =
  inr (acc ++ resolved_pairings user_id pus ps)%list.
Proof.
  intros Hps. revert acc.
  induction pus as [|pu pus IH]; intros acc.
  - cbn. rewrite app_nil_r. reflexivity.
  - cbn [map collect_user_pairings]. rewrite !py_get_field. cbn [rbind].
    unfold resolved_pairings. cbn [flat_map]. fold (resolved_pairings user_id pus ps).
    destruct (py_eq (field pu "userId") user_id).
    + rewrite Hps. cbn [rbind py_iter]. rewrite find_pairing_first. cbn [rbind].
      destruct (find _ ps) as [p|]; cbn [option_map].
      * rewrite IH, <- app_assoc. reflexivity.
      * rewrite IH. reflexivity.
    + rewrite IH. reflexivity.
Qed.

(** An entry that is not the user's is passed over without a look at the
    pairings. *)
Lemma resolved_pairings_none_owned (user_id : value) (pus ps : list dict) :
  (forall pu, In pu pus -> py_eq (field pu "userId") user_id = false) ->
  resolved_pairings user_id pus ps = [].
Proof.
  induction pus as [|pu pus IH]; intros Hno; [reflexivity|].
  unfold resolved_pairings. cbn [flat_map]. fold (resolved_pairings user_id pus ps).
  rewrite (Hno pu) by (left; reflexivity).
  apply IH. intros pu' Hin. apply Hno. right. exact Hin.
Qed.

Lemma resolved_pairings_none_found (user_id : value) (pus ps : list dict) :
  (forall pu p, In pu pus -> py_eq (field pu "userId") user_id = true ->
     In p ps -> py_eq (field p "id") (field pu "pairingId") = false) ->
  resolved_pairings user_id pus ps = [].
Proof.
  induction pus as [|pu pus IH]; intros Hno; [reflexivity|].
  unfold resolved_pairings. cbn [flat_map]. fold (resolved_pairings user_id pus ps).
  rewrite IH by (intros pu' p Hin; apply Hno; right; exact Hin).
  destruct (py_eq (field pu "userId") user_id) eqn:Eu; [|reflexivity].
  destruct (find _ ps) as [p|] eqn:Ef; [|reflexivity].
  apply find_some in Ef. destruct Ef as [Hin Heq].
  rewrite (Hno pu p) in Heq; [discriminate|left; reflexivity|exact Eu|exact Hin].
Qed.

(** [get_pairings] writes nothing of the client but its cache. *)
Lemma get_pairings_self (w w1 : world) (r : result value) :
  get_pairings w = (r, w1) ->
  _user_id (self w1) = _user_id (self w) /\
  _access_token (self w1) = _access_token (self w) /\
  _session (self w1) = _session (self w).
Proof.
  rewrite get_pairings_eq.
  destruct (negb (is_none (_pairings_cache (self w))));
    [intros [= _ <-]; auto|].
  cbv zeta.
  destruct (_session (self w) (calls w) (pairings_request (self w))) as [e0|resp];
    [intros [= _ <-]; auto|].
  destruct (in_401_403 (status resp)); [intros [= _ <-]; auto|].
  destruct (status resp =? 200); [|intros [= _ <-]; auto].
  destruct (py_get (json resp) "status" VNone) as [e0|st]; [intros [= _ <-]; auto|].
  destruct (negb (py_eq st (VStr "ok"))); intros [= _ <-]; auto.
Qed.

(** C5, as the code has it: for every discovery document whose
    [entities.pairingUser.list] and [entities.pairings.list] are arrays of
    objects (a missing [entities], member or [list] counting as empty),
    [get_devices] returns, in the order of the association entries,
    exactly the pairings resolved from the entries whose [userId] equals
    the client's user id, each by the first pairing whose [id] equals the
    entry's [pairingId]; when no entry is the user's, or no entry finds a
    pairing, the result is the empty list and nothing is raised. *)
Theorem get_devices_resolves (w w1 : world) (doc : value) (pus ps : list dict) :
  get_pairings w = (inr doc, w1) ->
  entity_list doc "pairingUser" = inr (VList (map VDict pus)) ->
  entity_list doc "pairings" = inr (VList (map VDict ps)) ->
  get_devices w = (inr (resolved_pairings (_user_id (self w)) pus ps), w1) /\
  ((forall pu, In pu pus -> py_eq (field pu "userId") (_user_id (self w)) = false) ->
   get_devices w = (inr [], w1)) /\
  ((forall pu p, In pu pus ->
      py_eq (field pu "userId") (_user_id (self w)) = true ->
      In p ps -> py_eq (field p "id") (field pu "pairingId") = false) ->
   get_devices w = (inr [], w1)).
Proof.
  intros Hdoc Hpus Hps.
  assert (Hrun : get_devices w =
                 (inr (resolved_pairings (_user_id (self w)) pus ps), w1)).
  { unfold get_devices. unfold bind at 1. rewrite Hdoc. run.
    rewrite Hpus. cbn [rbind py_iter].
    rewrite (collect_user_pairings_resolves _ _ _ ps) by exact Hps.
    destruct (get_pairings_self _ _ _ Hdoc) as (-> & _). reflexivity. }
  split; [exact Hrun|]. split; intros Hno; rewrite Hrun.
  - rewrite resolved_pairings_none_owned by exact Hno. reflexivity.
  - rewrite resolved_pairings_none_found by exact Hno. reflexivity.
Qed.

(** *** Aggregated unit data *)

Lemma find_pairing_is_dict (pairing_id : value) (ps : list value) (p : value) :
  find_pairing pairing_id ps = inr (Some p) -> is_dict p.
Proof.
  induction ps as [|q ps IH]; cbn [find_pairing]; [discriminate|].
  destruct q; cbn [py_get rbind]; try discriminate.
  destruct (lookup "id" d) as [v|]; cbn [rbind].
  - destruct (py_eq v pairing_id); [intros [= <-]; exact I|exact IH].
  - destruct (py_eq VNone pairing_id); [intros [= <-]; exact I|exact IH].
Qed.

Lemma collect_user_pairings_dicts (data user_id : value) (pus acc out : list value) :
  Forall is_dict acc ->
  collect_user_pairings data user_id pus acc = inr out ->
  Forall is_dict out.
Proof.
  revert acc. induction pus as [|pu pus IH]; intros acc Hacc; cbn [collect_user_pairings].
  - intros [= <-]. exact Hacc.
  - destruct (py_get pu "userId" VNone) as [e|uid]; cbn [rbind]; [discriminate|].
    destruct (py_eq uid user_id); [|apply IH; exact Hacc].
    destruct (py_get pu "pairingId" VNone) as [e|pid]; cbn [rbind]; [discriminate|].
    destruct (entity_list data "pairings") as [e|pairings]; cbn [rbind]; [discriminate|].
    destruct (py_iter pairings) as [e|ps]; cbn [rbind]; [discriminate|].
    destruct (find_pairing pid ps) as [e|[p|]] eqn:Ef; cbn [rbind]; [discriminate| |].
    + apply IH. apply Forall_app. split; [exact Hacc|].
      constructor; [|constructor]. eapply find_pairing_is_dict; eassumption.
    + apply IH; exact Hacc.
Qed.

Lemma Forall_is_dict (l : list value) :
  Forall is_dict l -> exists ds, l = map VDict ds.
Proof.
  induction 1 as [|v l Hv _ [ds ->]].
  - exists []. reflexivity.
  - destruct v; try contradiction. exists (d :: ds). reflexivity.
Qed.

(** Every device [get_devices] returns is a JSON object. *)
Lemma get_devices_dicts (w w1 : world) (devs : list value) :
  get_devices w = (inr devs, w1) -> exists devices, devs = map VDict devices.
Proof.
  unfold get_devices. unfold bind at 1.
  destruct (get_pairings w) as [[e|doc] w']; [discriminate|]. run.
  destruct (entity_list doc "pairingUser") as [e|pairing_users]; cbn [rbind];
    [discriminate|].
  destruct (py_iter pairing_users) as [e|pus]; cbn [rbind]; [discriminate|].
  destruct (collect_user_pairings doc (_user_id (self w')) pus []) as [e|out] eqn:Ec;
    [discriminate|].
  intros [= <- _]. apply Forall_is_dict.
  eapply collect_user_pairings_dicts; [|exact Ec]. constructor.
Qed.

Lemma field_str_lookup (d : dict) (k s : string) :
  field d k = VStr s -> lookup k d = Some (VStr s).
Proof. unfold field. destruct (lookup k d); [intros ->; reflexivity|discriminate]. Qed.

Lemma py_get_dict (d : dict) (k : string) (dflt : value) :
  py_get (VDict d) k dflt =
  inr (match lookup k d with Some x => x | None => dflt end).
Proof. unfold py_get. destruct (lookup k d); reflexivity. Qed.

(** The dict literal of [get_data] on a device whose type is absent or a
    string. *)
Lemma unit_data_snapshot (d : dict) (unit_id t : string) (climate_data : value) :
  lookup "id" d = Some (VStr unit_id) ->
  type_text d = Some t ->
  exists u, unit_data (VDict d) unit_id climate_data = inr u /\
            snapshot_of d u /\
            py_getitem u (Key "climate") = inr climate_data.
Proof.
  intros Hid Ht. unfold unit_data. rewrite !py_get_dict. cbn [rbind].
  assert (Hup : py_upper (match lookup "type" d with
                          | Some x => x
                          | None => VStr "Unknown"
                          end) = inr (str_upper t)).
  { unfold type_text in Ht. destruct (lookup "type" d) as [ty|].
    - destruct ty; try discriminate. injection Ht as ->. reflexivity.
    - injection Ht as <-. reflexivity. }
  rewrite Hup. cbn [rbind].
  eexists. split; [reflexivity|]. split; [|reflexivity].
  exists unit_id, t. eexists.
  repeat split; try eassumption; reflexivity.
Qed.

Lemma get_data_loop_snapshots (devices : list dict) :
  forall (units : list value) (w : world),
    climate_reads_succeed (self w) ->
    (forall d, In d devices -> has_str_id d = true -> type_text d <> None) ->
    exists new w2,
      get_data_loop (map VDict devices) units w = (inr (units ++ new)%list, w2) /\
      Forall2 snapshot_of (filter has_str_id devices) new /\
      self w2 = self w.
Proof.
  induction devices as [|d devices IH]; intros units w Hnet Hty.
  - exists [], w. cbn. rewrite app_nil_r. repeat split. constructor.
  - assert (Hty' : forall d', In d' devices -> has_str_id d' = true ->
                              type_text d' <> None)
      by (intros d' Hin; apply Hty; right; exact Hin).
    cbn [map get_data_loop filter]. unfold bind at 1, lift.
    rewrite py_get_field. unfold has_str_id at 1.
    destruct (field d "id") as [| | | |uid| |] eqn:Eid; cbn [is_str];
      try (apply IH; assumption).
    assert (Hsome : exists t, type_text d = Some t).
    { destruct (type_text d) as [t|] eqn:Et; [eauto|].
      exfalso. apply (Hty d); [left; reflexivity| |exact Et].
      unfold has_str_id. rewrite Eid. reflexivity. }
    destruct Hsome as [t Ht].
    unfold bind at 1. rewrite get_unit_climate_data_eq. cbv zeta.
    destruct (Hnet (calls w) uid) as (resp & Hs & H200).
    rewrite Hs, H200. cbn [in_401_403 Z.eqb Pos.eqb orb].
    unfold bind at 1, lift.
    destruct (unit_data_snapshot d uid t (json resp) (field_str_lookup _ _ _ Eid) Ht)
      as (u & Hu & Hsnap & _).
    rewrite Hu.
    destruct (IH (units ++ [u])%list
                 (issued w (climate_read_request (self w) uid)) Hnet Hty')
      as (new & w2 & Hrun & Hall & Hself).
    exists (u :: new), w2. rewrite Hrun, <- app_assoc.
    repeat split; [constructor; assumption|exact Hself].
Qed.

(** C6, as the code has it: when every climate read is answered with
    status 200 and every device with a string [id] has a [type] that is
    absent or a string, [get_data] and its alias [get_units] go through
    the resolved devices in order, pass over each device whose [id] is not
    a string, and return for each remaining device one snapshot whose
    [unit_id] is the device id, whose [model] is ["AirPatrol "] followed
    by the upper-cased type (the type being ["Unknown"] when the key is
    absent), whose [name] is the device's or, when the key is absent,
    ["AirPatrol Device "] followed by the unit id, and whose
    [manufacturer] is ["AirPatrol"]. *)
Theorem get_data_snapshots (w w1 : world) (devices : list dict) :
  get_devices w = (inr (map VDict devices), w1) ->
  climate_reads_succeed (self w1) ->
  (forall d, In d devices -> has_str_id d = true -> type_text d <> None) ->
  exists units w2,
    get_data w = (inr units, w2) /\
    get_units w = (inr units, w2) /\
    Forall2 snapshot_of (filter has_str_id devices) units.
Proof.
  intros Hdev Hnet Hty.
  destruct (get_data_loop_snapshots devices [] w1 Hnet Hty)
    as (units & w2 & Hrun & Hall & _).
  cbn [app] in Hrun.
  assert (Hdata : get_data w = (inr units, w2))
    by (unfold get_data, bind; rewrite Hdev; exact Hrun).
  exists units, w2. unfold get_units. auto.
Qed.

(** *** Beyond the claims: calls, failures and the cache *)

(** X4: When the session raises instead of answering, each of the three
    fetching methods raises that same exception; the call is on record and
    the client is as it was. *)
Theorem session_errors_propagate (w : world) (e : exn) :
  (_pairings_cache (self w) = VNone ->
   _session (self w) (calls w) (pairings_request (self w)) = inl e ->
   get_pairings w = (inl e, issued w (pairings_request (self w)))) /\
  (forall unit_id,
     _session (self w) (calls w) (climate_read_request (self w) unit_id) = inl e ->
     get_unit_climate_data unit_id w =
       (inl e, issued w (climate_read_request (self w) unit_id))) /\
  (forall unit_id climate_data,
     _session (self w) (calls w)
       (climate_write_request (self w) unit_id climate_data) = inl e ->
     set_unit_climate_data unit_id climate_data w =
       (inl e, issued w (climate_write_request (self w) unit_id climate_data))).
Proof.
  repeat split.
  - intros Hc Hs. rewrite get_pairings_eq, Hc. cbn [is_none negb]. cbv zeta.
    rewrite Hs. reflexivity.
  - intros unit_id Hs. rewrite get_unit_climate_data_eq. cbv zeta.
    rewrite Hs. reflexivity.
  - intros unit_id climate_data Hs. rewrite set_unit_climate_data_eq. cbv zeta.
    rewrite Hs. reflexivity.
Qed.

(** X5: The two GET requests.  On an empty cache [get_pairings] makes one
    call, to the pairings URL with the bearer header alone;
    [get_unit_climate_data] always makes one call, to the command URL with
    the bearer and pairing-id headers; neither carries a JSON body, and
    this holds whatever comes back. *)
Theorem get_requests_shape (w : world) :
  (_pairings_cache (self w) = VNone ->
   calls (snd (get_pairings w)) =
     (calls w ++
      [{| req_method := GET;
          req_url := "https://auth.apsrvd.io/v1/pairings";
          req_headers :=
            [("Authorization", ("Bearer " ++ py_str (_access_token (self w)))%string)];
          req_json := None |}])%list) /\
  (forall unit_id,
     calls (snd (get_unit_climate_data unit_id w)) =
       (calls w ++
        [{| req_method := GET;
            req_url := "https://api.apsrvd.io/12/command";
            req_headers :=
              [("Authorization", ("Bearer " ++ py_str (_access_token (self w)))%string);
               ("X-Pairing-Id", unit_id)];
            req_json := None |}])%list).
Proof.
  split.
  - intros Hc. rewrite get_pairings_miss_calls by exact Hc. reflexivity.
  - intros unit_id. rewrite get_unit_climate_data_eq. reflexivity.
Qed.

Lemma get_devices_state (w : world) :
  snd (get_devices w) = snd (get_pairings w).
Proof.
  unfold get_devices. unfold bind at 1.
  destruct (get_pairings w) as [[e|doc] w1]; [reflexivity|]. run.
  destruct (entity_list doc "pairingUser") as [e|pairing_users]; [reflexivity|].
  cbn [rbind].
  destruct (py_iter pairing_users) as [e|pus]; reflexivity.
Qed.

(** X6: With a document in the cache, [get_devices] makes no call and writes
    nothing, whether it returns or raises on the shape of the document. *)
Theorem get_devices_on_cache_is_pure (w : world) :
  _pairings_cache (self w) <> VNone ->
  snd (get_devices w) = w.
Proof.
  intros Hc. rewrite get_devices_state, get_pairings_hit by exact Hc. reflexivity.
Qed.

(** X7: A failure of the pairings fetch is the failure of [get_devices],
    [get_data] and [get_units]: same exception, same state, no climate
    read. *)
Theorem pairings_failure_propagates (w w' : world) (e : exn) :
  get_pairings w = (inl e, w') ->
  get_devices w = (inl e, w') /\
  get_data w = (inl e, w') /\
  get_units w = (inl e, w').
Proof.
  intros Hp.
  assert (Hd : get_devices w = (inl e, w'))
    by (unfold get_devices, bind; rewrite Hp; reflexivity).
  assert (Hg : get_data w = (inl e, w'))
    by (unfold get_data, bind; rewrite Hd; reflexivity).
  auto.
Qed.

(** X8: The cache of a new client is empty, and [get_pairings] and
    [clear_pairings_cache] keep it empty or holding an object whose
    [status] is ["ok"]; so a document [get_pairings] returns, fetched or
    cached, is such an object. *)
Theorem cache_holds_ok_documents :
  (forall session token user_id,
     cache_ok (_pairings_cache (AirPatrolAPI_init session token user_id))) /\
  (forall w, cache_ok (_pairings_cache (self (snd (clear_pairings_cache w))))) /\
  (forall w r w',
     cache_ok (_pairings_cache (self w)) ->
     get_pairings w = (r, w') ->
     cache_ok (_pairings_cache (self w')) /\
     (forall doc, r = inr doc ->
        is_dict doc /\ py_get doc "status" VNone = inr (VStr "ok"))).
Proof.
  split; [left; reflexivity|]. split; [left; reflexivity|].
  intros w r w' Hinv. rewrite get_pairings_eq.
  assert (Hobj : forall doc, py_get doc "status" VNone = inr (VStr "ok") ->
                             is_dict doc)
    by (intros doc; destruct doc; try discriminate; intros _; exact I).
  destruct (is_none (_pairings_cache (self w))) eqn:En; cbn [negb].
  - cbv zeta.
    destruct (_session (self w) (calls w) (pairings_request (self w))) as [e0|resp];
      [intros [= <- <-]; split; [exact Hinv|discriminate]|].
    destruct (in_401_403 (status resp));
      [intros [= <- <-]; split; [exact Hinv|discriminate]|].
    destruct (status resp =? 200);
      [|intros [= <- <-]; split; [exact Hinv|discriminate]].
    destruct (py_get (json resp) "status" VNone) as [e0|st] eqn:Est;
      [intros [= <- <-]; split; [exact Hinv|discriminate]|].
    destruct (py_eq st (VStr "ok")) eqn:Eok; cbn [negb];
      [|intros [= <- <-]; split; [exact Hinv|discriminate]].
    apply py_eq_str in Eok. subst st.
    intros [= <- <-]. split; [right; exact Est|].
    intros doc [= <-]. split; [apply Hobj|]; exact Est.
  - apply is_none_false in En.
    intros [= <- <-]. split; [exact Hinv|].
    intros doc [= <-]. destruct Hinv as [Hn|Hok]; [contradiction|].
    split; [apply Hobj|]; exact Hok.
Qed.

(** *** Beyond the claims: device resolution *)

Lemma find_pairing_sound (pairing_id : value) (ps : list value) (p : value) :
  find_pairing pairing_id ps = inr (Some p) ->
  In p ps /\ exists d, p = VDict d /\ py_eq (field d "id") pairing_id = true.
Proof.
  induction ps as [|q ps IH]; cbn [find_pairing]; [discriminate|].
  destruct q; cbn [py_get rbind]; try discriminate.
  fold (py_get (VDict d) "id" VNone). rewrite py_get_field. cbn [rbind].
  destruct (py_eq (field d "id") pairing_id) eqn:E.
  - intros [= <-]. split; [left; reflexivity|eauto].
  - intros Hf. destruct (IH Hf) as [Hin Hd]. split; [right; exact Hin|exact Hd].
Qed.

Lemma collect_user_pairings_sound (data user_id : value) (all : list value) :
  forall pus acc out,
    (forall x, In x pus -> In x all) ->
    Forall (resolved_from data user_id all) acc ->
    collect_user_pairings data user_id pus acc = inr out ->
    Forall (resolved_from data user_id all) out /\
    (List.length out <= List.length acc + List.length pus)%nat.
Proof.
  induction pus as [|pu pus IH]; intros acc out Hsub Hacc; cbn [collect_user_pairings].
  - intros [= <-]. split; [exact Hacc|lia].
  - assert (Hsub' : forall x, In x pus -> In x all)
      by (intros x Hx; apply Hsub; right; exact Hx).
    destruct pu; cbn [py_get rbind]; try discriminate.
    fold (py_get (VDict d) "userId" VNone). rewrite py_get_field. cbn [rbind].
    destruct (py_eq (field d "userId") user_id) eqn:Eown.
    + fold (py_get (VDict d) "pairingId" VNone). rewrite py_get_field. cbn [rbind].
      destruct (entity_list data "pairings") as [e|pairings] eqn:Ep; cbn [rbind];
        [discriminate|].
      destruct (py_iter pairings) as [e|ps] eqn:Ei; cbn [rbind]; [discriminate|].
      destruct (find_pairing (field d "pairingId") ps) as [e|[p|]] eqn:Ef; cbn [rbind];
        [discriminate| |].
      * intros Hrun.
        destruct (find_pairing_sound _ _ _ Ef) as (Hin & dp & -> & Hid).
        destruct (IH (acc ++ [VDict dp])%list out Hsub') as [Hall Hlen];
          [|exact Hrun|].
        -- apply Forall_app. split; [exact Hacc|].
           constructor; [|constructor].
           exists dp, d, pairings, ps.
           repeat split; try assumption. apply Hsub. left. reflexivity.
        -- split; [exact Hall|]. rewrite length_app in Hlen. cbn in *. lia.
      * intros Hrun. destruct (IH acc out Hsub' Hacc Hrun) as [Hall Hlen].
        split; [exact Hall|]. cbn. lia.
    + intros Hrun. destruct (IH acc out Hsub' Hacc Hrun) as [Hall Hlen].
      split; [exact Hall|]. cbn. lia.
Qed.

(** X9: Whatever the document, a list [get_devices] returns holds nothing but
    what was resolved: every element is an object taken from the
    document's pairings list, whose [id] equals the [pairingId] of an
    association entry whose [userId] equals the client's user id; and it
    has at most one element per association entry. *)
Theorem get_devices_sound (w w1 : world) (devs : list value) :
  get_devices w = (inr devs, w1) ->
  exists doc pairing_users pus,
    get_pairings w = (inr doc, w1) /\
    entity_list doc "pairingUser" = inr pairing_users /\
    py_iter pairing_users = inr pus /\
    Forall (resolved_from doc (_user_id (self w)) pus) devs /\
    (List.length devs <= List.length pus)%nat.
Proof.
  unfold get_devices. unfold bind at 1.
  destruct (get_pairings w) as [[e|doc] w'] eqn:Hp; [discriminate|]. run.
  destruct (entity_list doc "pairingUser") as [e|pairing_users] eqn:Eu; cbn [rbind];
    [discriminate|].
  destruct (py_iter pairing_users) as [e|pus] eqn:Ei; cbn [rbind]; [discriminate|].
  destruct (collect_user_pairings doc (_user_id (self w')) pus []) as [e|out] eqn:Ec;
    [discriminate|].
  intros [= <- <-].
  destruct (get_pairings_self _ _ _ Hp) as (Hu & _).
  rewrite Hu in Ec.
  destruct (collect_user_pairings_sound doc (_user_id (self w)) pus pus [] out)
    as [Hall Hlen]; [auto|constructor|exact Ec|].
  exists doc, pairing_users, pus. repeat split; assumption.
Qed.

Lemma collect_user_pairings_none_owned (data user_id : value) (pus : list dict)
    (acc : list value) :
  (forall pu, In pu pus -> py_eq (field pu "userId") user_id = false) ->
  collect_user_pairings data user_id (map VDict pus) acc = inr acc.
Proof.
  induction pus as [|pu pus IH]; intros Hno; [reflexivity|].
  cbn [map collect_user_pairings]. rewrite py_get_field. cbn [rbind].
  rewrite (Hno pu) by (left; reflexivity).
  apply IH. intros pu' Hin. apply Hno. right. exact Hin.
Qed.

(** X10: The pairings list is read only for an entry of the user: when no
    association entry is the user's, [get_devices] returns the empty list
    whatever [entities.pairings] holds, [null] included. *)
Theorem get_devices_none_owned_reads_no_pairings (w w1 : world) (doc : value)
    (pus : list dict) :
  get_pairings w = (inr doc, w1) ->
  entity_list doc "pairingUser" = inr (VList (map VDict pus)) ->
  (forall pu, In pu pus -> py_eq (field pu "userId") (_user_id (self w)) = false) ->
  get_devices w = (inr [], w1).
Proof.
  intros Hdoc Hpus Hno.
  unfold get_devices. unfold bind at 1. rewrite Hdoc. run.
  rewrite Hpus. cbn [rbind py_iter].
  destruct (get_pairings_self _ _ _ Hdoc) as (-> & _).
  rewrite collect_user_pairings_none_owned by exact Hno. reflexivity.
Qed.

Lemma find_pairing_prefix (pairing_id : value) (pre : list dict) (rest : list value) :
  (forall q, In q pre -> py_eq (field q "id") pairing_id = false) ->
  find_pairing pairing_id (map VDict pre ++ rest) = find_pairing pairing_id rest.
Proof.
  induction pre as [|q pre IH]; intros Hno; [reflexivity|].
  cbn [map app find_pairing]. rewrite py_get_field. cbn [rbind].
  rewrite (Hno q) by (left; reflexivity).
  apply IH. intros q' Hin. apply Hno. right. exact Hin.
Qed.

(** X11: The scan of the pairings list stops at the first match.  For a single
    entry of the user, when the objects before the first pairing with the
    wanted id do not have it, that pairing is the result whatever follows
    it in the list; and when what comes first is not an object, the scan
    raises [AttributeError]. *)
Theorem get_devices_scan_stops_at_first_match (w w1 : world) (doc : value)
    (pu : dict) (pre : list dict) (rest : list value) :
  get_pairings w = (inr doc, w1) ->
  entity_list doc "pairingUser" = inr (VList [VDict pu]) ->
  py_eq (field pu "userId") (_user_id (self w)) = true ->
  (forall q, In q pre -> py_eq (field q "id") (field pu "pairingId") = false) ->
  (forall p,
     entity_list doc "pairings" = inr (VList (map VDict pre ++ VDict p :: rest)) ->
     py_eq (field p "id") (field pu "pairingId") = true ->
     get_devices w = (inr [VDict p], w1)) /\
  (forall junk,
     entity_list doc "pairings" = inr (VList (map VDict pre ++ junk :: rest)) ->
     ~ is_dict junk ->
     get_devices w = (inl AttributeError, w1)).
Proof.
  intros Hdoc Hpus Hown Hpre.
  destruct (get_pairings_self _ _ _ Hdoc) as (Hu & _).
  split.
  - intros p Hps Hmatch.
    unfold get_devices. unfold bind at 1. rewrite Hdoc. run.
    rewrite Hpus. cbn [rbind py_iter collect_user_pairings].
    rewrite !py_get_field. cbn [rbind]. rewrite Hu, Hown, Hps. cbn [rbind py_iter].
    rewrite find_pairing_prefix by exact Hpre.
    cbn [find_pairing]. rewrite py_get_field. cbn [rbind]. rewrite Hmatch.
    reflexivity.
  - intros junk Hps Hjunk.
    unfold get_devices. unfold bind at 1. rewrite Hdoc. run.
    rewrite Hpus. cbn [rbind py_iter collect_user_pairings].
    rewrite !py_get_field. cbn [rbind]. rewrite Hu, Hown, Hps. cbn [rbind py_iter].
    rewrite find_pairing_prefix by exact Hpre.
    cbn [find_pairing].
    destruct junk; try reflexivity. exfalso. apply Hjunk. exact I.
Qed.

(** *** Beyond the claims: the aggregation loop *)

Lemma str_id_field (d : dict) (uid : string) :
  field d "id" = VStr uid -> str_id d = uid.
Proof.
  intros Hf. apply field_str_lookup in Hf. unfold str_id. rewrite Hf. reflexivity.
Qed.

Lemma unit_data_exact (d : dict) (t : string) (climate_data : value) :
  type_text d = Some t ->
  unit_data (VDict d) (str_id d) climate_data = inr (snapshot d climate_data).
Proof.
  intros Ht. unfold unit_data, snapshot. rewrite !py_get_dict. cbn [rbind].
  rewrite Ht. unfold type_text in Ht. unfold field.
  destruct (lookup "type" d) as [ty|].
  - destruct ty; try discriminate. injection Ht as ->. reflexivity.
  - injection Ht as <-. reflexivity.
Qed.

(** One successful turn of the loop on a device with a string id. *)
Lemma get_unit_climate_data_answered (w : world) (answer : string -> response)
    (unit_id : string) :
  answers_reads (self w) answer ->
  get_unit_climate_data unit_id w =
  (if in_401_403 (status (answer unit_id)) then
     inl (AirPatrolAuthenticationError "Failed to fetch climate data")
   else if status (answer unit_id) =? 200 then inr (json (answer unit_id))
   else inl (AirPatrolError ("Failed to fetch climate data: " ++
                             str_of_int (status (answer unit_id)))),
   issued w (climate_read_request (self w) unit_id)).
Proof.
  intros Hans. rewrite get_unit_climate_data_eq. cbv zeta. rewrite Hans. reflexivity.
Qed.

Lemma get_data_loop_exact (answer : string -> response) (devices : list dict) :
  forall (units : list value) (w : world),
    answers_reads (self w) answer ->
    (forall d, In d devices -> has_str_id d = true ->
               status (answer (str_id d)) = 200 /\ type_text d <> None) ->
    get_data_loop (map VDict devices) units w =
    (inr (units ++ map (fun d => snapshot d (json (answer (str_id d))))
                       (filter has_str_id devices))%list,
     {| self := self w;
        calls := (calls w ++ map (fun d => climate_read_request (self w) (str_id d))
                                 (filter has_str_id devices))%list |}).
Proof.
  induction devices as [|d devices IH]; intros units w Hans Hok.
  - cbn. rewrite !app_nil_r. destruct w; reflexivity.
  - assert (Hok' : forall d', In d' devices -> has_str_id d' = true ->
                     status (answer (str_id d')) = 200 /\ type_text d' <> None)
      by (intros d' Hin; apply Hok; right; exact Hin).
    cbn [map get_data_loop filter]. unfold bind at 1, lift.
    rewrite py_get_field.
    replace (has_str_id d) with (is_str (field d "id")) by reflexivity.
    destruct (field d "id") as [| | | |uid| |] eqn:Eid; cbn [is_str];
      try (apply IH; assumption).
    destruct (Hok d) as [H200 Hty];
      [left; reflexivity|unfold has_str_id; rewrite Eid; reflexivity|].
    destruct (type_text d) as [t|] eqn:Et; [clear Hty|contradiction].
    pose proof (str_id_field _ _ Eid) as Hid.
    unfold bind at 1. rewrite (get_unit_climate_data_answered w answer uid Hans).
    rewrite <- Hid, H200. cbn [in_401_403 Z.eqb Pos.eqb orb].
    unfold bind at 1, lift. rewrite (unit_data_exact d t _ Et).
    rewrite (IH _ (issued w (climate_read_request (self w) (str_id d))) Hans Hok').
    cbn [issued self calls map]. rewrite <- !app_assoc. reflexivity.
Qed.

(** X12: [get_data] in full when the session answers each climate read by the
    unit id: the result is, in device order, the complete snapshot of each
    device with a string id (the eight entries in the order of the dict
    literal, [hwid], [type] and [app_id] being [None] when the device
    lacks them, [climate] being the body answered for that unit), and the
    calls it adds after the resolution are exactly one climate read per
    such device, in the same order. *)
Theorem get_data_exact (w w1 : world) (devices : list dict)
    (answer : string -> response) :
  get_devices w = (inr (map VDict devices), w1) ->
  answers_reads (self w1) answer ->
  (forall d, In d devices -> has_str_id d = true ->
             status (answer (str_id d)) = 200 /\ type_text d <> None) ->
  get_data w =
  (inr (map (fun d => snapshot d (json (answer (str_id d))))
            (filter has_str_id devices)),
   {| self := self w1;
      calls := (calls w1 ++ map (fun d => climate_read_request (self w1) (str_id d))
                                (filter has_str_id devices))%list |}).
Proof.
  intros Hdev Hans Hok. unfold get_data, bind. rewrite Hdev.
  rewrite (get_data_loop_exact answer devices [] w1 Hans Hok). reflexivity.
Qed.

Lemma get_data_loop_aborts (answer : string -> response) (d : dict)
    (rest : list value) (pre : list dict) :
  forall (units : list value) (w : world),
    answers_reads (self w) answer ->
    (forall x, In x pre -> has_str_id x = true ->
               status (answer (str_id x)) = 200 /\ type_text x <> None) ->
    has_str_id d = true ->
    status (answer (str_id d)) <> 200 ->
    get_data_loop (map VDict pre ++ VDict d :: rest) units w =
    (inl (read_failure (answer (str_id d))),
     {| self := self w;
        calls := (calls w ++
                  map (fun x => climate_read_request (self w) (str_id x))
                      (filter has_str_id pre) ++
                  [climate_read_request (self w) (str_id d)])%list |}).
Proof.
  induction pre as [|x pre IH]; intros units w Hans Hok Hd Hfail.
  - cbn [map app get_data_loop filter]. unfold bind at 1, lift.
    rewrite py_get_field. unfold has_str_id in Hd.
    destruct (field d "id") as [| | | |uid| |] eqn:Eid; try discriminate.
    pose proof (str_id_field _ _ Eid) as Hid.
    unfold bind at 1. rewrite (get_unit_climate_data_answered w answer uid Hans).
    rewrite <- Hid. unfold read_failure.
    destruct (in_401_403 (status (answer (str_id d)))); [reflexivity|].
    destruct (status (answer (str_id d)) =? 200) eqn:E200;
      [apply Z.eqb_eq in E200; contradiction|reflexivity].
  - assert (Hok' : forall x', In x' pre -> has_str_id x' = true ->
                     status (answer (str_id x')) = 200 /\ type_text x' <> None)
      by (intros x' Hin; apply Hok; right; exact Hin).
    cbn [map app get_data_loop filter]. unfold bind at 1, lift.
    rewrite py_get_field.
    replace (has_str_id x) with (is_str (field x "id")) by reflexivity.
    destruct (field x "id") as [| | | |uid| |] eqn:Eid; cbn [is_str];
      try (apply IH; assumption).
    destruct (Hok x) as [H200 Hty];
      [left; reflexivity|unfold has_str_id; rewrite Eid; reflexivity|].
    destruct (type_text x) as [t|] eqn:Et; [clear Hty|contradiction].
    pose proof (str_id_field _ _ Eid) as Hid.
    unfold bind at 1. rewrite (get_unit_climate_data_answered w answer uid Hans).
    rewrite <- Hid, H200. cbn [in_401_403 Z.eqb Pos.eqb orb].
    unfold bind at 1, lift. rewrite (unit_data_exact x t _ Et).
    rewrite (IH _ (issued w (climate_read_request (self w) (str_id x)))
                Hans Hok' Hd Hfail).
    cbn [issued self calls map app]. rewrite <- !app_assoc. reflexivity.
Qed.

(** X13: No partial result: when the climate read of a device fails, after the
    reads of the devices before it have succeeded, [get_data] raises the
    error of that read (the authentication error on 401 and 403, the
    generic error with the status otherwise), returns no snapshot, and
    makes no call for the devices after it, whatever they are. *)
Theorem get_data_aborts_at_failed_read (w w1 : world) (pre : list dict) (d : dict)
    (rest : list value) (answer : string -> response) :
  get_devices w = (inr (map VDict pre ++ VDict d :: rest)%list, w1) ->
  answers_reads (self w1) answer ->
  (forall x, In x pre -> has_str_id x = true ->
             status (answer (str_id x)) = 200 /\ type_text x <> None) ->
  has_str_id d = true ->
  status (answer (str_id d)) <> 200 ->
  get_data w =
  (inl (read_failure (answer (str_id d))),
   {| self := self w1;
      calls := (calls w1 ++
                map (fun x => climate_read_request (self w1) (str_id x))
                    (filter has_str_id pre) ++
                [climate_read_request (self w1) (str_id d)])%list |}).
Proof.
  intros Hdev Hans Hok Hd Hfail. unfold get_data, bind. rewrite Hdev.
  apply get_data_loop_aborts; assumption.
Qed.

Lemma get_data_loop_trace (devices : list value) :
  forall (units : list value) (w w' : world) (r : result (list value)),
    get_data_loop devices units w = (r, w') ->
    self w' = self w /\
    exists ids, calls w' = (calls w ++ map (climate_read_request (self w)) ids)%list.
Proof.
  induction devices as [|device devices IH]; intros units w w' r.
  - cbn. intros [= _ <-]. split; [reflexivity|]. exists []. cbn.
    rewrite app_nil_r. reflexivity.
  - cbn [get_data_loop]. unfold bind at 1, lift.
    assert (Hstop : forall (e : exn), (inl e : result (list value), w) = (r, w') ->
              self w' = self w /\
              exists ids, calls w' = (calls w ++ map (climate_read_request (self w)) ids)%list).
    { intros e [= _ <-]. split; [reflexivity|]. exists []. cbn.
      rewrite app_nil_r. reflexivity. }
    destruct (py_get device "id" VNone) as [e|unit_id]; [apply Hstop|].
    destruct unit_id as [| | | |uid| |]; try apply IH.
    unfold bind at 1. rewrite get_unit_climate_data_eq. cbv zeta.
    assert (Hone : forall (e : exn),
              (inl e : result (list value),
               issued w (climate_read_request (self w) uid)) = (r, w') ->
              self w' = self w /\
              exists ids, calls w' = (calls w ++ map (climate_read_request (self w)) ids)%list).
    { intros e [= _ <-]. split; [reflexivity|]. exists [uid]. reflexivity. }
    destruct (_session (self w) (calls w) (climate_read_request (self w) uid))
      as [e|resp]; [apply Hone|].
    destruct (in_401_403 (status resp)); [apply Hone|].
    destruct (status resp =? 200); [|apply Hone].
    unfold bind at 1, lift.
    destruct (unit_data device uid (json resp)) as [e|entry]; [apply Hone|].
    intros Hrun. apply IH in Hrun. destruct Hrun as [Hself [ids Hcalls]].
    split; [exact Hself|]. exists (uid :: ids).
    rewrite Hcalls. cbn [issued self calls map]. rewrite <- app_assoc. reflexivity.
Qed.

Lemma get_pairings_calls (w : world) :
  calls (snd (get_pairings w)) =
  (calls w ++ if is_none (_pairings_cache (self w))
              then [pairings_request (self w)] else [])%list.
Proof.
  destruct (is_none (_pairings_cache (self w))) eqn:En.
  - apply is_none_spec in En. apply get_pairings_miss_calls. exact En.
  - apply is_none_false in En. rewrite get_pairings_hit by exact En.
    cbn. rewrite app_nil_r. reflexivity.
Qed.

(** X14: All that [get_data] ever does to the world, whatever the documents and
    whether it returns or raises: the token, the user id and the session
    of the client stay as they were, and the calls it adds are at most one
    pairings request, made exactly when the cache is empty, followed by
    climate reads only. *)
Theorem get_data_network_trace (w w' : world) (r : result (list value)) :
  get_data w = (r, w') ->
  _access_token (self w') = _access_token (self w) /\
  _user_id (self w') = _user_id (self w) /\
  _session (self w') = _session (self w) /\
  exists ids,
    calls w' =
    (calls w ++
     (if is_none (_pairings_cache (self w)) then [pairings_request (self w)] else []) ++
     map (climate_read_request (self w)) ids)%list.
Proof.
  unfold get_data. unfold bind at 1.
  pose proof (get_devices_state w) as Hst.
  pose proof (get_pairings_calls w) as Hcalls.
  destruct (get_pairings w) as [rp wp] eqn:Hp.
  destruct (get_pairings_self _ _ _ Hp) as (Hu & Ht & Hs).
  cbn [snd] in Hst, Hcalls.
  destruct (get_devices w) as [[e|devs] w1]; cbn [snd] in Hst; subst w1.
  - intros [= _ <-]. repeat split; try assumption.
    exists []. cbn [map]. rewrite app_nil_r. exact Hcalls.
  - intros Hloop. apply get_data_loop_trace in Hloop.
    destruct Hloop as [Hself [ids Hids]]. rewrite Hself.
    repeat split; try assumption.
    exists ids. rewrite Hids, Hcalls, <- app_assoc.
    replace (climate_read_request (self wp)) with (climate_read_request (self w));
      [reflexivity|].
    unfold climate_read_request, command_headers, bearer. rewrite Ht. reflexivity.
Qed.

(** X15: A login body can carry [null] as the user id: [authenticate] accepts
    it and returns a client, and that client's [get_unique_id] raises
    [ValueError], as on a client built without a user id. *)
Theorem authenticate_null_user_id session email password log resp tok :
  session log (login_request email password) = inr resp ->
  status resp = 200 ->
  py_get (json resp) "status" VNone = inr (VStr "ok") ->
  py_path (json resp) USER_ID_PATH = inr VNone ->
  py_path (json resp) ACCESS_TOKEN_PATH = inr tok ->
  exists api,
    fst (authenticate session email password log) = inr api /\
    forall issued_so_far,
      fst (get_unique_id (mk_world api issued_so_far)) =
        inl (ValueError "Not authenticated") /\
      fst (get_access_token (mk_world api issued_so_far)) = inr tok.
Proof.
  intros Hs H200 Hok Hu Ht.
  exists (AirPatrolAPI_init session tok VNone).
  rewrite (authenticate_ok_branch _ _ _ _ _ Hs H200 Hok), Hu, Ht.
  split; [reflexivity|]. intros issued_so_far. split; reflexivity.
Qed.

(** X16: A client that has no user id takes every association entry without
    a [userId] (absent or [null]) for its own: [None == None].  On such
    entries [get_devices] returns the first matching pairing of each. *)
Theorem get_devices_without_user_id (w w1 : world) (doc : value)
    (pus ps : list dict) :
  _user_id (self w) = VNone ->
  get_pairings w = (inr doc, w1) ->
  entity_list doc "pairingUser" = inr (VList (map VDict pus)) ->
  entity_list doc "pairings" = inr (VList (map VDict ps)) ->
  (forall pu, In pu pus -> field pu "userId" = VNone) ->
  get_devices w =
  (inr (flat_map
          (fun pu =>
             match find (fun p => py_eq (field p "id") (field pu "pairingId")) ps with
             | Some p => [VDict p]
             | None => []
             end) pus),
   w1).
Proof.
  intros Hnone Hdoc Hpus Hps Hno.
  unfold get_devices. unfold bind at 1. rewrite Hdoc. run.
  rewrite Hpus. cbn [rbind py_iter].
  rewrite (collect_user_pairings_resolves _ _ _ ps) by exact Hps.
  destruct (get_pairings_self _ _ _ Hdoc) as (-> & _). rewrite Hnone.
  cbn [app]. do 2 f_equal.
  clear Hpus. induction pus as [|pu pus IH]; [reflexivity|].
  unfold resolved_pairings. cbn [flat_map]. fold (resolved_pairings VNone pus ps).
  rewrite (Hno pu) by (left; reflexivity). cbn [py_eq is_none].
  rewrite IH by (intros pu' Hin; apply Hno; right; exact Hin). reflexivity.
Qed.

(** X17: Climate calls leave the client object alone, its cache included: a
    read or a write, whatever its outcome, does not refresh or drop the
    cached pairings, and a [get_pairings] that follows a write on a
    populated cache returns the cached document without a call. *)
Theorem climate_calls_keep_cache (w : world) (unit_id : string) (climate_data : dict) :
  self (snd (get_unit_climate_data unit_id w)) = self w /\
  self (snd (set_unit_climate_data unit_id climate_data w)) = self w /\
  (_pairings_cache (self w) <> VNone ->
   get_pairings (snd (set_unit_climate_data unit_id climate_data w)) =
     (inr (_pairings_cache (self w)),
      issued w (climate_write_request (self w) unit_id climate_data))).
Proof.
  rewrite get_unit_climate_data_eq, set_unit_climate_data_eq. cbv zeta. cbn [snd].
  repeat split. intros Hc. rewrite get_pairings_hit by exact Hc. reflexivity.
Qed.

End Pairings.

(** ** The tests of the repository, and the statements above at work *)

#[local] Existing Instance ascii_builtins.

Example test_authenticate_success :
  exists api,
    authenticate (fun _ _ => inr (ok login_body)) "test@example.com" "password" [] =
      (inr api, [login_request "test@example.com" "password"]) /\
    _access_token api = VStr "test_access_token" /\
    _user_id api = VStr "test_user_id" /\
    _pairings_cache api = VNone.
Proof.
  apply (authenticate_returns_client
           (fun _ _ => inr (ok login_body)) "test@example.com" "password" []
           (ok login_body));
    reflexivity.
Defined.

(** A 200 login response whose body is [{"status": "ok"}] and nothing
    more: [data["entities"]] raises [KeyError] and no client is returned. *)
Example authenticate_ok_body_without_fields :
  status (ok (VDict [("status", VStr "ok")])) = 200 /\
  py_get (json (ok (VDict [("status", VStr "ok")]))) "status" VNone = inr (VStr "ok") /\
  authenticate (fun _ _ => inr (ok (VDict [("status", VStr "ok")])))
    "test@example.com" "password" [] =
  (inl (KeyError (Key "entities")), [login_request "test@example.com" "password"]).
Proof. repeat split. Qed.

(** The same with an empty user list: [list[0]] raises [IndexError]. *)
Example authenticate_ok_body_without_users :
  fst (authenticate
         (fun _ _ => inr (ok (VDict [("status", VStr "ok");
                                     ("entities", VDict [("users", VDict [("list", VList [])])]);
                                     ("misc", VDict [("accessToken", VStr "t")])])))
         "test@example.com" "password" []) =
  inl IndexError.
Proof. reflexivity. Qed.

Example test_authenticate_failure_status :
  fst (authenticate (fun _ _ => inr (mk_response 401 VNone "Unauthorized"))
         "test@example.com" "password" []) =
  inl (AirPatrolAuthenticationError "Authentication failed").
Proof.
  destruct (authenticate_failure_cases
              (fun _ _ => inr (mk_response 401 VNone "Unauthorized"))
              "test@example.com" "password" []
              (mk_response 401 VNone "Unauthorized") eq_refl)
    as [[_ Hfails] _].
  apply Hfails. left. simpl. lia.
Defined.

Example test_authenticate_failure_exception :
  fst (authenticate (fun _ _ => inl (TransportError "Connection error"))
         "test@example.com" "password" []) =
  inl (TransportError "Connection error").
Proof. reflexivity. Qed.

Example test_pairings_cache :
  (get_pairings ;;; get_pairings) (data_world [test_pairing]) =
    (inr (pairings_body "test_user_id" [test_pairing]),
     snd (get_pairings (data_world [test_pairing]))) /\
  List.length (calls (snd ((get_pairings ;;; get_pairings) (data_world [test_pairing])))) = 1%nat /\
  List.length
    (calls (snd ((get_pairings ;;; clear_pairings_cache ;;; get_pairings)
                   (data_world [test_pairing])))) = 2%nat.
Proof.
  destruct (get_pairings_memoizes (data_world [test_pairing])) as (_ & Htwice & Hclear).
  destruct (Htwice (pairings_body "test_user_id" [test_pairing])
                   (snd (get_pairings (data_world [test_pairing])))
                   eq_refl eq_refl) as [Hrun Hcalls].
  rewrite Hrun.
  rewrite (Hclear (pairings_body "test_user_id" [test_pairing])
                  (snd (get_pairings (data_world [test_pairing])))
                  eq_refl eq_refl).
  repeat split.
Defined.

Example test_get_pairings_success :
  get_pairings (data_world [test_pairing]) =
  (inr (pairings_body "test_user_id" [test_pairing]),
   cached (issued (data_world [test_pairing])
                  (pairings_request (self (data_world [test_pairing]))))
          (pairings_body "test_user_id" [test_pairing])).
Proof.
  destruct (get_pairings_response_cases (data_world [test_pairing])
              (ok (pairings_body "test_user_id" [test_pairing])) eq_refl eq_refl)
    as (_ & _ & Hok & _).
  apply Hok; reflexivity.
Defined.

Example test_get_pairings_failure_error_status :
  fst (get_pairings
         (const_world (ok (VDict [("status", VStr "error");
                                  ("errors", VList [VStr "Invalid token"])])))) =
  inl (AirPatrolError "API returned error status").
Proof. reflexivity. Qed.

Example test_get_data_failure :
  fst (get_data (const_world (mk_response 500 VNone "Internal Server Error"))) =
  inl (AirPatrolError "Failed to fetch pairings: 500").
Proof. reflexivity. Qed.

Example test_get_pairings_failure_status :
  _pairings_cache (self (snd (get_pairings (const_world (mk_response 401 VNone "Unauthorized"))))) =
    VNone /\
  List.length
    (calls (snd (get_pairings
                   (snd (get_pairings (const_world (mk_response 401 VNone "Unauthorized"))))))) =
    2%nat.
Proof.
  destruct (get_pairings_failure_keeps_cache
              (const_world (mk_response 401 VNone "Unauthorized"))) as [Hkeep _].
  destruct (Hkeep (AirPatrolAuthenticationError "Failed to fetch pairings")
                  (snd (get_pairings (const_world (mk_response 401 VNone "Unauthorized"))))
                  eq_refl) as [Hcache Hagain].
  split; [exact Hcache|].
  rewrite (Hagain eq_refl). reflexivity.
Defined.

Example test_get_devices_success :
  get_devices (data_world [test_pairing]) =
  (inr [VDict test_pairing], snd (get_pairings (data_world [test_pairing]))).
Proof.
  apply (get_devices_resolves (data_world [test_pairing])
           (snd (get_pairings (data_world [test_pairing])))
           (pairings_body "test_user_id" [test_pairing])
           [test_pairing_user "test_user_id"] [test_pairing]);
    reflexivity.
Defined.

Example test_get_devices_no_user_pairings :
  fst (get_devices
         (api_world (mock_session (ok (pairings_body "other_user_id" [test_pairing]))
                                  (ok climate_body)))) =
  inr [].
Proof. reflexivity. Qed.

(** A discovery document whose [entities] member is [null]: there is no
    association entry, and [get_devices] raises [AttributeError]. *)
Example get_devices_null_entities :
  fst (get_pairings (const_world (ok (entities_body VNone)))) =
    inr (entities_body VNone) /\
  fst (get_devices (const_world (ok (entities_body VNone)))) = inl AttributeError.
Proof. split; reflexivity. Qed.

(** The user's entry resolves to nothing because the pairings array holds
    a [null]: the scan raises [AttributeError]. *)
Example get_devices_null_pairing :
  fst (get_devices
         (const_world
            (ok (entities_body
                   (VDict [("pairingUser",
                            VDict [("list", VList [VDict (test_pairing_user "test_user_id")])]);
                           ("pairings", VDict [("list", VList [VNone])])]))))) =
  inl AttributeError.
Proof. reflexivity. Qed.

Example test_get_data_success :
  exists units w2,
    get_data (data_world [test_pairing]) = (inr units, w2) /\
    get_units (data_world [test_pairing]) = (inr units, w2) /\
    Forall2 snapshot_of (filter has_str_id [test_pairing]) units.
Proof.
  apply (get_data_snapshots (data_world [test_pairing])
           (snd (get_pairings (data_world [test_pairing]))) [test_pairing]).
  - reflexivity.
  - intros log unit_id. exists (ok climate_body). split; reflexivity.
  - intros d [<-|[]] _. discriminate.
Defined.

Example test_get_units :
  option_map (fun u => (py_getitem u (Key "unit_id"), py_getitem u (Key "name"),
                        py_getitem u (Key "model")))
    (match fst (get_units (data_world [test_pairing])) with
     | inr [u] => Some u
     | _ => None
     end) =
  Some (inr (VStr "00000"), inr (VStr "Test Device"), inr (VStr "AirPatrol APW")).
Proof. reflexivity. Qed.

(** A device with a string id and [type: null], every climate read
    answered with 200: [None.upper()] raises [AttributeError] and no
    snapshot is returned; the climate read was issued before. *)
Example get_data_null_type :
  fst (get_devices (data_world [[("id", VStr "00000"); ("type", VNone)]])) =
    inr [VDict [("id", VStr "00000"); ("type", VNone)]] /\
  has_str_id [("id", VStr "00000"); ("type", VNone)] = true /\
  fst (get_data (data_world [[("id", VStr "00000"); ("type", VNone)]])) =
    inl AttributeError /\
  List.length (calls (snd (get_data (data_world [[("id", VStr "00000"); ("type", VNone)]])))) =
    2%nat.
Proof. repeat split. Qed.

(** A device whose id is a number is passed over: no climate read. *)
Example get_data_skips_numeric_id :
  get_data (data_world [[("id", VInt 7); ("name", VStr "n")]]) =
  (inr [], snd (get_pairings (data_world [[("id", VInt 7); ("name", VStr "n")]]))).
Proof. reflexivity. Qed.

Example test_climate_data_failure :
  fst (get_unit_climate_data "00000" (const_world (mk_response 400 VNone "Bad Request"))) =
    inl (AirPatrolError "Failed to fetch climate data: 400") /\
  fst (set_unit_climate_data "00000" [("foo", VStr "bar")]
         (const_world (mk_response 400 VNone "Bad Request"))) =
    inl (AirPatrolError "Failed to set climate data: 400").
Proof.
  destruct (climate_calls_status_contract
              (const_world (mk_response 400 VNone "Bad Request")) "00000")
    as [Hget Hset].
  destruct (Hget (mk_response 400 VNone "Bad Request") eq_refl) as (_ & _ & _ & Hg).
  destruct (Hset [("foo", VStr "bar")] (mk_response 400 VNone "Bad Request") eq_refl)
    as (_ & _ & _ & Hs).
  split; [apply Hg | apply Hs]; simpl; lia.
Defined.

Example test_set_unit_climate_data :
  set_unit_climate_data "00000" [("ApiVersion", VStr "12")] (const_world (ok climate_body)) =
  (inr climate_body,
   issued (const_world (ok climate_body))
     {| req_method := POST;
        req_url := "https://api.apsrvd.io/12/command";
        req_headers := [("Authorization", "Bearer test_access_token");
                        ("X-Pairing-Id", "00000")];
        req_json := Some (VDict [("ApiVersion", VStr "12")]) |}).
Proof. reflexivity. Qed.

Example test_get_unique_id :
  fst (get_unique_id (const_world (ok climate_body))) = inr (VStr "test_user_id") /\
  fst (get_access_token (const_world (ok climate_body))) = inr (VStr "test_access_token").
Proof. split; reflexivity. Qed.

(** *** The further statements at work *)

Example authenticate_empty_user_list :
  fst (authenticate
         (fun _ _ => inr (ok (VDict [("status", VStr "ok");
                                     ("entities", VDict [("users", VDict [("list", VList [])])]);
                                     ("misc", VDict [("accessToken", VStr "t")])])))
         "test@example.com" "password" []) =
  inl IndexError.
Proof.
  destruct (authenticate_shape_errors
              (fun _ _ => inr (ok (VDict [("status", VStr "ok");
                                          ("entities", VDict [("users", VDict [("list", VList [])])]);
                                          ("misc", VDict [("accessToken", VStr "t")])])))
              "test@example.com" "password" []
              (ok (VDict [("status", VStr "ok");
                          ("entities", VDict [("users", VDict [("list", VList [])])]);
                          ("misc", VDict [("accessToken", VStr "t")])]))
              eq_refl eq_refl) as [_ Hok].
  destruct (Hok eq_refl) as [Huser _].
  apply (Huser IndexError). reflexivity.
Defined.

Example authenticate_client_holds_login_body :
  py_path login_body ACCESS_TOKEN_PATH = inr (VStr "test_access_token") /\
  py_path login_body USER_ID_PATH = inr (VStr "test_user_id").
Proof.
  destruct (authenticate_client_from_body
              (fun _ _ => inr (ok login_body)) "test@example.com" "password" []
              (ok login_body)
              (AirPatrolAPI_init (fun _ _ => inr (ok login_body))
                 (VStr "test_access_token") (VStr "test_user_id"))
              eq_refl eq_refl) as (Htok & Huid & _).
  split; [exact Htok|exact Huid].
Defined.

Example authenticate_null_id_then_get_unique_id :
  exists api,
    fst (authenticate
           (fun _ _ => inr (ok (VDict [("status", VStr "ok");
                                       ("entities",
                                        VDict [("users", VDict [("list", VList [VDict [("id", VNone)]])])]);
                                       ("misc", VDict [("accessToken", VStr "t")])])))
           "test@example.com" "password" []) = inr api /\
    forall issued_so_far,
      fst (get_unique_id (mk_world api issued_so_far)) =
        inl (ValueError "Not authenticated") /\
      fst (get_access_token (mk_world api issued_so_far)) = inr (VStr "t").
Proof.
  apply (authenticate_null_user_id
           (fun _ _ => inr (ok (VDict [("status", VStr "ok");
                                       ("entities",
                                        VDict [("users", VDict [("list", VList [VDict [("id", VNone)]])])]);
                                       ("misc", VDict [("accessToken", VStr "t")])])))
           "test@example.com" "password" []
           (ok (VDict [("status", VStr "ok");
                       ("entities",
                        VDict [("users", VDict [("list", VList [VDict [("id", VNone)]])])]);
                       ("misc", VDict [("accessToken", VStr "t")])])));
    reflexivity.
Defined.

Example session_error_on_each_fetch :
  fst (get_pairings (api_world (fun _ _ => inl (TransportError "Connection error")))) =
    inl (TransportError "Connection error") /\
  fst (get_unit_climate_data "00000"
         (api_world (fun _ _ => inl (TransportError "Connection error")))) =
    inl (TransportError "Connection error").
Proof.
  destruct (session_errors_propagate
              (api_world (fun _ _ => inl (TransportError "Connection error")))
              (TransportError "Connection error")) as (Hp & Hr & _).
  rewrite (Hp eq_refl eq_refl), (Hr "00000" eq_refl). split; reflexivity.
Defined.

Example get_devices_twice_one_call :
  snd (get_devices (snd (get_devices (data_world [test_pairing])))) =
  snd (get_devices (data_world [test_pairing])).
Proof.
  apply (get_devices_on_cache_is_pure (snd (get_devices (data_world [test_pairing])))).
  simpl. discriminate.
Defined.

Example get_data_after_failed_pairings :
  get_data (const_world (mk_response 500 VNone "Internal Server Error")) =
  (inl (AirPatrolError "Failed to fetch pairings: 500"),
   snd (get_pairings (const_world (mk_response 500 VNone "Internal Server Error")))).
Proof.
  apply (pairings_failure_propagates
           (const_world (mk_response 500 VNone "Internal Server Error"))
           (snd (get_pairings (const_world (mk_response 500 VNone "Internal Server Error"))))
           (AirPatrolError "Failed to fetch pairings: 500")).
  reflexivity.
Defined.

Example fetched_document_is_ok :
  is_dict (pairings_body "test_user_id" [test_pairing]) /\
  py_get (pairings_body "test_user_id" [test_pairing]) "status" VNone = inr (VStr "ok").
Proof.
  destruct cache_holds_ok_documents as (_ & _ & Hkeep).
  destruct (Hkeep (data_world [test_pairing])
                  (inr (pairings_body "test_user_id" [test_pairing]))
                  (snd (get_pairings (data_world [test_pairing])))
                  (or_introl eq_refl) eq_refl) as [_ Hdoc].
  apply Hdoc. reflexivity.
Defined.

Example resolved_test_device :
  exists doc pairing_users pus,
    get_pairings (data_world [test_pairing]) =
      (inr doc, snd (get_pairings (data_world [test_pairing]))) /\
    entity_list doc "pairingUser" = inr pairing_users /\
    py_iter pairing_users = inr pus /\
    Forall (resolved_from doc (VStr "test_user_id") pus) [VDict test_pairing] /\
    (List.length [VDict test_pairing] <= List.length pus)%nat.
Proof.
  apply (get_devices_sound (data_world [test_pairing])
           (snd (get_pairings (data_world [test_pairing]))) [VDict test_pairing]).
  reflexivity.
Defined.

(** Another user's entry and [null] for the pairings: empty, no error. *)
Example other_user_and_null_pairings :
  fst (get_devices
         (const_world
            (ok (entities_body
                   (VDict [("pairingUser",
                            VDict [("list", VList [VDict (test_pairing_user "other_user_id")])]);
                           ("pairings", VNone)]))))) =
  inr [].
Proof.
  rewrite (get_devices_none_owned_reads_no_pairings
             (const_world
                (ok (entities_body
                       (VDict [("pairingUser",
                                VDict [("list", VList [VDict (test_pairing_user "other_user_id")])]);
                               ("pairings", VNone)]))))
             _ _ [test_pairing_user "other_user_id"] eq_refl eq_refl).
  - reflexivity.
  - intros pu [<-|[]]. reflexivity.
Defined.

(** Two pairings with the id wanted and a [null] after them: the first. *)
Example first_of_two_and_null_after :
  fst (get_devices
         (const_world
            (ok (entities_body
                   (VDict [("pairingUser",
                            VDict [("list", VList [VDict (test_pairing_user "test_user_id")])]);
                           ("pairings",
                            VDict [("list",
                                    VList [VDict [("id", VStr "11111")];
                                           VDict test_pairing;
                                           VDict [("id", VStr "00000"); ("name", VStr "second")];
                                           VNone])])]))))) =
  inr [VDict test_pairing].
Proof.
  destruct (get_devices_scan_stops_at_first_match
              (const_world
                 (ok (entities_body
                        (VDict [("pairingUser",
                                 VDict [("list", VList [VDict (test_pairing_user "test_user_id")])]);
                                ("pairings",
                                 VDict [("list",
                                         VList [VDict [("id", VStr "11111")];
                                                VDict test_pairing;
                                                VDict [("id", VStr "00000"); ("name", VStr "second")];
                                                VNone])])]))))
              _ _ (test_pairing_user "test_user_id") [[("id", VStr "11111")]]
              [VDict [("id", VStr "00000"); ("name", VStr "second")]; VNone]
              eq_refl eq_refl eq_refl) as [Hfirst _].
  - intros q [<-|[]]. reflexivity.
  - rewrite (Hfirst test_pairing eq_refl eq_refl). reflexivity.
Defined.

Example entry_without_user_id :
  fst (get_devices
         (mk_world
            (AirPatrolAPI_init
               (fun _ _ =>
                  inr (ok (entities_body
                             (VDict [("pairingUser",
                                      VDict [("list", VList [VDict [("pairingId", VStr "00000")]])]);
                                     ("pairings", VDict [("list", VList [VDict test_pairing])])]))))
               (VStr "test_access_token") VNone)
            [])) =
  inr [VDict test_pairing].
Proof.
  rewrite (get_devices_without_user_id
             (mk_world
                (AirPatrolAPI_init
                   (fun _ _ =>
                      inr (ok (entities_body
                                 (VDict [("pairingUser",
                                          VDict [("list", VList [VDict [("pairingId", VStr "00000")]])]);
                                         ("pairings", VDict [("list", VList [VDict test_pairing])])]))))
                   (VStr "test_access_token") VNone)
                [])
             _ _ [[("pairingId", VStr "00000")]] [test_pairing]
             eq_refl eq_refl eq_refl eq_refl).
  - reflexivity.
  - intros pu [<-|[]]. reflexivity.
Defined.

Example test_device_full_snapshot :
  fst (get_data (data_world [test_pairing])) =
  inr [VDict [("unit_id", VStr "00000");
              ("name", VStr "Test Device");
              ("model", VStr "AirPatrol APW");
              ("manufacturer", VStr "AirPatrol");
              ("hwid", VStr "AAAAA-BBBBB-CCCCC-DDDDD-EEEEE");
              ("type", VStr "apw");
              ("app_id", VStr "00000-00000-00000-00000-00000");
              ("climate", climate_body)]].
Proof.
  rewrite (get_data_exact (data_world [test_pairing])
             (snd (get_pairings (data_world [test_pairing]))) [test_pairing]
             (fun _ => ok climate_body)).
  - reflexivity.
  - reflexivity.
  - intros log unit_id. reflexivity.
  - intros d [<-|[]] _. split; [reflexivity|discriminate].
Defined.

Example second_read_fails :
  fst (get_data (three_units_world (fun u => if String.eqb u "b"
                                             then mk_response 503 VNone "Service Unavailable"
                                             else ok climate_body))) =
    inl (AirPatrolError "Failed to fetch climate data: 503") /\
  map req_headers
    (calls (snd (get_data (three_units_world
                             (fun u => if String.eqb u "b"
                                       then mk_response 503 VNone "Service Unavailable"
                                       else ok climate_body))))) =
    [[("Authorization", "Bearer test_access_token")];
     [("Authorization", "Bearer test_access_token"); ("X-Pairing-Id", "a")];
     [("Authorization", "Bearer test_access_token"); ("X-Pairing-Id", "b")]].
Proof.
  rewrite (get_data_aborts_at_failed_read
             (three_units_world (fun u => if String.eqb u "b"
                                          then mk_response 503 VNone "Service Unavailable"
                                          else ok climate_body))
             (snd (get_pairings
                     (three_units_world
                        (fun u => if String.eqb u "b"
                                  then mk_response 503 VNone "Service Unavailable"
                                  else ok climate_body))))
             [[("id", VStr "a")]] [("id", VStr "b")] [VDict [("id", VStr "c")]]
             (fun u => if String.eqb u "b"
                       then mk_response 503 VNone "Service Unavailable"
                       else ok climate_body)).
  - split; reflexivity.
  - reflexivity.
  - intros log unit_id. reflexivity.
  - intros x [<-|[]] _. split; [reflexivity|discriminate].
  - reflexivity.
  - simpl. lia.
Defined.

Example test_get_data_trace :
  exists ids,
    calls (snd (get_data (data_world [test_pairing]))) =
    (calls (data_world [test_pairing]) ++
     (if is_none (_pairings_cache (self (data_world [test_pairing])))
      then [pairings_request (self (data_world [test_pairing]))] else []) ++
     map (climate_read_request (self (data_world [test_pairing]))) ids)%list.
Proof.
  destruct (get_data_network_trace (data_world [test_pairing])
              (snd (get_data (data_world [test_pairing])))
              (fst (get_data (data_world [test_pairing]))) eq_refl)
    as (_ & _ & _ & Hids).
  exact Hids.
Defined.
